(** * Carbon component library: Slider, FilterableMultiSelect, ModalFooter,
      ErrorBoundary and the Sketch colour styles

    A shallow embedding of the event-handling code of the React components
    and of the Sketch shared-style synchronisation, with the properties the
    specification states about them.

    JavaScript numbers are IEEE 754 binary64 values; they are modelled by
    Rocq's primitive [float], which is the same format with the same
    rounding.  The operations that JavaScript adds on top of the IEEE ones
    ([Math.max], [Math.min], [Math.round], [Math.floor], [parseFloat],
    truthiness, ...) are written out below after ECMA-262.  Strings are
    sequences of 8-bit characters, so of the white space of ECMA-262 the
    ASCII characters are the ones recognised. *)

From Stdlib Require Import ZArith Bool List String Ascii Lia.
From Stdlib Require Import Floats.
Import ListNotations.

(* ================================================================= *)
(** ** JavaScript numbers and the built-ins the components call *)

Module JS.

Open Scope float_scope.

(** Every exact integer becomes the nearest binary64 value. *)
Definition of_Z (z : Z) : float :=
  SF2Prim (binary_normalize prec emax z 0%Z false).

(** [ToBoolean] on a Number: [+0], [-0] and [NaN] are falsy. *)
Definition truthy (x : float) : bool := negb (is_nan x || is_zero x).

Definition is_neg_zero (x : float) : bool :=
  match Prim2SF x with S754_zero true => true | _ => false end.

(** [Math.max(a, b)]: NaN if either is NaN; [+0] is larger than [-0]. *)
Definition Math_max (a b : float) : float :=
  if is_nan a || is_nan b then nan
  else if a <? b then b
  else if b <? a then a
  else if is_neg_zero a then b else a.

(** [Math.min(a, b)]: NaN if either is NaN; [-0] is smaller than [+0]. *)
Definition Math_min (a b : float) : float :=
  if is_nan a || is_nan b then nan
  else if a <? b then a
  else if b <? a then b
  else if is_neg_zero a then a else b.

(** The largest integer at or below [x + half / 2], computed exactly
    from the sign, mantissa and exponent of [x]: [half = 0] gives the
    floor of [x], [half = 1] the floor of [x] plus one half.  A value
    whose exponent is not negative is an integer already. *)
Definition floor_with (half : Z) (x : float) : float :=
  match Prim2SF x with
  | S754_finite s m e =>
      if (0 <=? e)%Z then x
      else
        let den := (2 ^ (1 - e))%Z in
        let num := (2 * cond_Zopp s (Zpos m) + half * 2 ^ (- e))%Z in
        SF2Prim (binary_normalize prec emax (num / den)%Z 0%Z s)
  | _ => x
  end.

(** [Math.floor(x)]. *)
Definition Math_floor (x : float) : float := floor_with 0 x.

(** [Math.round(x)]: the nearest integer, a tie going towards
    [+Infinity]; a result of zero keeps the sign of [x]. *)
Definition Math_round (x : float) : float := floor_with 1 x.

(** A value that may be [null] or [undefined]. *)
Inductive nullable (A : Type) :=
| null
| undefined
| value (a : A).
Arguments null {A}.
Arguments undefined {A}.
Arguments value {A} a.

(** [a ?? b]. *)
Definition nullish {A} (a : nullable A) (b : A) : A :=
  match a with value v => v | _ => b end.

(** *** Numeric strings *)

Definition is_ws (c : ascii) : bool :=
  match nat_of_ascii c with
  | 9 | 10 | 11 | 12 | 13 | 32 => true
  | _ => false
  end%nat.

Fixpoint skip_ws (s : string) : string :=
  match s with
  | String c r => if is_ws c then skip_ws r else s
  | EmptyString => s
  end.

Fixpoint all_ws (s : string) : bool :=
  match s with
  | String c r => is_ws c && all_ws r
  | EmptyString => true
  end.

Definition digit_of (base : Z) (c : ascii) : option Z :=
  let n := Z.of_nat (nat_of_ascii c) in
  let d :=
    if (48 <=? n)%Z && (n <=? 57)%Z then Some (n - 48)%Z
    else if (97 <=? n)%Z && (n <=? 102)%Z then Some (n - 87)%Z
    else if (65 <=? n)%Z && (n <=? 70)%Z then Some (n - 55)%Z
    else None in
  match d with
  | Some v => if (v <? base)%Z then Some v else None
  | None => None
  end.

(** Reads the longest run of digits in [base]: the number read so far,
    how many digits were read, and what is left. *)
Fixpoint take_digits (base : Z) (s : string) (acc cnt : Z)
  : Z * Z * string :=
  match s with
  | String c r =>
      match digit_of base c with
      | Some d => take_digits base r (acc * base + d)%Z (cnt + 1)%Z
      | None => (acc, cnt, s)
      end
  | EmptyString => (acc, cnt, s)
  end.

Definition take_sign (s : string) : bool * string :=
  match s with
  | String "-"%char r => (true, r)
  | String "+"%char r => (false, r)
  | _ => (false, s)
  end.

(** The binary64 value nearest to [(-1)^neg * d * 10^k]. *)
Definition decimal (neg : bool) (d k : Z) : float :=
  match d with
  | Zpos p =>
      if (0 <=? k)%Z
      then SF2Prim
             (binary_normalize prec emax
                (cond_Zopp neg (d * 10 ^ k)%Z) 0%Z neg)
      else SF2Prim
             (SFdiv prec emax (S754_finite neg p 0%Z)
                (S754_finite false (Z.to_pos (10 ^ (- k))) 0%Z))
  | _ => if neg then neg_zero else zero
  end.

(** [ExponentPart]: [e] or [E], an optional sign and at least one digit;
    nothing is consumed when no digit follows. *)
Definition take_exponent (s : string) : Z * string :=
  match s with
  | String c r =>
      if (Ascii.eqb c "e" || Ascii.eqb c "E")%bool then
        let '(neg, r1) := take_sign r in
        let '(e, n, r2) := take_digits 10 r1 0%Z 0%Z in
        if (n =? 0)%Z then (0%Z, s) else (cond_Zopp neg e, r2)
      else (0%Z, s)
  | EmptyString => (0%Z, s)
  end.

(** The longest prefix of [s] that is a [StrDecimalLiteral], with what
    follows it; [None] when no prefix is one. *)
Definition StrDecimalLiteral (s : string) : option (float * string) :=
  let '(neg, r0) := take_sign s in
  if String.prefix "Infinity" r0 then
    Some (if neg then neg_infinity else infinity,
          String.substring 8 (String.length r0 - 8) r0)
  else
    let '(ip, ni, r1) := take_digits 10 r0 0%Z 0%Z in
    let '(m, nf, r2) :=
      match r1 with
      | String "."%char r =>
          let '(m, nf, r2) := take_digits 10 r ip 0%Z in
          if ((ni =? 0) && (nf =? 0))%Z%bool then (ip, 0%Z, r1)
          else (m, nf, r2)
      | _ => (ip, 0%Z, r1)
      end in
    if ((ni =? 0) && (nf =? 0))%Z%bool then None
    else
      let '(e, r3) := take_exponent r2 in
      Some (decimal neg m (e - nf), r3).

(** [Number.parseFloat(s)]. *)
Definition parseFloat (s : string) : float :=
  match StrDecimalLiteral (skip_ws s) with
  | Some (x, _) => x
  | None => nan
  end.

Definition radix_literal (s : string) : option float :=
  match s with
  | String "0"%char (String c r) =>
      let base :=
        if (Ascii.eqb c "x" || Ascii.eqb c "X")%bool then Some 16%Z
        else if (Ascii.eqb c "o" || Ascii.eqb c "O")%bool then Some 8%Z
        else if (Ascii.eqb c "b" || Ascii.eqb c "B")%bool then Some 2%Z
        else None in
      match base with
      | Some b =>
          let '(v, n, rest) := take_digits b r 0%Z 0%Z in
          if ((0 <? n)%Z && all_ws rest)%bool then Some (of_Z v)
          else Some nan
      | None => None
      end
  | _ => None
  end.

(** [StringToNumber(s)], the conversion [ToNumber] applies to a String. *)
Definition StringToNumber (s : string) : float :=
  let t := skip_ws s in
  if all_ws t then zero
  else
    match radix_literal t with
    | Some x => x
    | None =>
        match StrDecimalLiteral t with
        | Some (x, rest) => if all_ws rest then x else nan
        | None => nan
        end
    end.

End JS.

(* ================================================================= *)
(** ** Slider *)

Module Slider.

Import JS.
Open Scope float_scope.

(** [enum HandlePosition { LOWER = 'lower', UPPER = 'upper' }]: at run
    time a handle position is the string itself, and the handlers also
    receive strings read back from [dataset.handlePosition]. *)
Module HandlePosition.
Definition LOWER : string := "lower".
Definition UPPER : string := "upper".
End HandlePosition.

(** What [value], [valueLower] and [valueUpper] hold: the props are
    numbers or absent, and [onChange] stores the text of the input
    when it is not a number. *)
Inductive val :=
| Undefined
| Num (x : float)
| Str (s : string).

Definition ToBoolean (v : val) : bool :=
  match v with
  | Undefined => false
  | Num x => truthy x
  | Str s => negb (String.eqb s "")
  end.

Definition ToNumber (v : val) : float :=
  match v with
  | Undefined => nan
  | Num x => x
  | Str s => StringToNumber s
  end.

(** [a === b]. *)
Definition strict_eq (a b : val) : bool :=
  match a, b with
  | Undefined, Undefined => true
  | Num x, Num y => x =? y
  | Str s, Str t => String.eqb s t
  | _, _ => false
  end.

(** [a < b]: two strings compare as strings, anything else as numbers. *)
Definition lt (a b : val) : bool :=
  match a, b with
  | Str s, Str t => String.ltb s t
  | _, _ => ToNumber a <? ToNumber b
  end.

(** [a > b]. *)
Definition gt (a b : val) : bool := lt b a.

Module props.
Record t := {
  min : float;
  max : float;
  step : nullable float;
  stepMultiplier : nullable float;
  disabled : bool;
  readOnly : bool;
  twoHandles : bool;
  value : val;
  valueLower : val;
  valueUpper : val;
  (** whether [onChange] / [onRelease] are functions *)
  onChange : bool;
  onRelease : bool
}.
End props.

Module defaultProps.
Definition step : float := 1.
Definition stepMultiplier : float := 4.
End defaultProps.

Module state.
Record t := {
  value : val;
  valueLower : val;
  valueUpper : val;
  left : float;
  leftLower : float;
  leftUpper : float;
  needsOnRelease : bool;
  isValid : bool;
  activeHandle : nullable string
}.

(** The updates [setState] is called with. *)
Definition set_value v (s : t) :=
  Build_t v (valueLower s) (valueUpper s) (left s) (leftLower s)
    (leftUpper s) (needsOnRelease s) (isValid s) (activeHandle s).
Definition set_valueLower v (s : t) :=
  Build_t (value s) v (valueUpper s) (left s) (leftLower s)
    (leftUpper s) (needsOnRelease s) (isValid s) (activeHandle s).
Definition set_valueUpper v (s : t) :=
  Build_t (value s) (valueLower s) v (left s) (leftLower s)
    (leftUpper s) (needsOnRelease s) (isValid s) (activeHandle s).
Definition set_left x (s : t) :=
  Build_t (value s) (valueLower s) (valueUpper s) x (leftLower s)
    (leftUpper s) (needsOnRelease s) (isValid s) (activeHandle s).
Definition set_leftLower x (s : t) :=
  Build_t (value s) (valueLower s) (valueUpper s) (left s) x
    (leftUpper s) (needsOnRelease s) (isValid s) (activeHandle s).
Definition set_leftUpper x (s : t) :=
  Build_t (value s) (valueLower s) (valueUpper s) (left s)
    (leftLower s) x (needsOnRelease s) (isValid s) (activeHandle s).
Definition set_needsOnRelease b (s : t) :=
  Build_t (value s) (valueLower s) (valueUpper s) (left s)
    (leftLower s) (leftUpper s) b (isValid s) (activeHandle s).
Definition set_isValid b (s : t) :=
  Build_t (value s) (valueLower s) (valueUpper s) (left s)
    (leftLower s) (leftUpper s) (needsOnRelease s) b (activeHandle s).
Definition set_activeHandle h (s : t) :=
  Build_t (value s) (valueLower s) (valueUpper s) (left s)
    (leftLower s) (leftUpper s) (needsOnRelease s) (isValid s) h.
End state.

(** [state = { value: this.props.value, ..., left: 0, ... }]. *)
Definition initial_state (p : props.t) : state.t :=
  {| state.value := props.value p;
     state.valueLower := props.valueLower p;
     state.valueUpper := props.valueUpper p;
     state.left := 0;
     state.leftLower := 0;
     state.leftUpper := 0;
     state.needsOnRelease := false;
     state.isValid := true;
     state.activeHandle := null |}.

(** The part of a [DOMRect] the slider reads. *)
Record DOMRect := { rect_left : float; rect_right : float }.

(** An input element as the handlers see it. *)
Record Target := {
  target_value : val;
  handlePosition : nullable string   (* [dataset.handlePosition] *)
}.

(** An event object; [target = None] when it has no [target]. *)
Record Event := { target : option Target }.

(** The keys [onKeyDown] matches [evt.which] against. *)
Inductive Key := ArrowDown | ArrowLeft | ArrowUp | ArrowRight | otherKey.

(** A keyboard event; [which = None] when it has no [which]. *)
Record KeyboardEvent := { which : option Key; shiftKey : bool }.

(** [{ value, left }], the result of [calcValue]. *)
Record ValueLeft := { value : val; left : float }.

(** A number that is truthy: neither absent, zero nor NaN. *)
Definition number_truthy (x : nullable float) : option float :=
  match x with
  | JS.value x => if truthy x then Some x else None
  | _ => None
  end.

(** Whether a handle position is truthy: neither [null], [undefined]
    nor the empty string. *)
Definition handle_truthy (h : nullable string) : option string :=
  match h with
  | JS.value s => if String.eqb s "" then None else Some s
  | _ => None
  end.

(** Whether one of the props [componentDidUpdate] watches differs from
    its previous value. *)
Definition props_changed (prevProps p : props.t) : bool :=
  negb (strict_eq (props.value prevProps) (props.value p)
        && strict_eq (props.valueLower prevProps) (props.valueLower p)
        && strict_eq (props.valueUpper prevProps) (props.valueUpper p)
        && (props.max prevProps =? props.max p)
        && (props.min prevProps =? props.min p)).

Section Instance.

(** [this.props], and the bounding rectangle of [this.element]
    ([None] when there is no element). *)
Variable this_props : props.t.
Variable boundingClientRect : option DOMRect.

(** [Number::toString], the text of a number in the shortest decimal
    form that reads back as the same number. *)
Variable Number_toString : float -> string.

Definition clamp (val min max : float) : float :=
  Math_max min (Math_min val max).

Definition calcLeftPercent
  (clientX : nullable float) (value : val) (range : float) : float :=
  let boundingRect := boundingClientRect in
  let width :=
    match boundingRect with
    | Some r => rect_right r - rect_left r
    | None => 0
    end in
  (* Enforce a minimum width of at least 1 for calculations *)
  let width := if width <=? 0 then 1 else width in
  match number_truthy clientX with
  | Some clientX =>
      let leftOffset :=
        clientX
        - match boundingRect with Some r => rect_left r | None => 0 end in
      leftOffset / width
  | None =>
      if ToBoolean value && truthy range then
        (* Prevent NaN calculation if the range is 0. *)
        if range =? 0 then 0
        else (ToNumber value - props.min this_props) / range
      else 0
  end.

Definition calcSteppedValuePercent (leftPercent range : float)
  : float * float :=
  let step := nullish (props.step this_props) defaultProps.step in
  let totalSteps := range / step in
  let steppedValue := Math_round (leftPercent * totalSteps) * step in
  let steppedPercent := clamp (steppedValue / range) 0 1 in
  let steppedValue :=
    clamp (steppedValue + props.min this_props)
      (props.min this_props) (props.max this_props) in
  (steppedValue, steppedPercent).

Definition calcValue
  (clientX : nullable float) (value : val) (useRawValue : bool)
  : ValueLeft :=
  let range := props.max this_props - props.min this_props in
  let leftPercent := calcLeftPercent clientX value range in
  if useRawValue then
    {| value := value;
       left := Math_min 1 (Math_max 0 leftPercent) * 100 |}
  else
    let '(steppedValue, steppedPercent) :=
      calcSteppedValuePercent leftPercent range in
    {| value := Num steppedValue; left := steppedPercent * 100 |}.

(** [a + b] where [b] is a number: a string is concatenated with the
    text of the number, anything else is added as a number. *)
Definition plus (a : val) (b : float) : val :=
  match a with
  | Str s => Str (s ++ Number_toString b)
  | _ => Num (ToNumber a + b)
  end.

(** Given the current value, delta and step, calculate the new value.
    The default of [step] applies when it is [undefined]; [null] is
    converted to 0 by the division. *)
Definition calcValueForDelta
  (currentValue : val) (delta : float) (step : nullable float) : val :=
  let step :=
    match step with
    | undefined => defaultProps.step
    | null => 0
    | JS.value step => step
    end in
  if 0 <? delta
  then Num (Math_floor (ToNumber currentValue / step) * step + delta)
  else plus currentValue delta.

(** Guards against setting either lower or upper values beyond its
    counterpart. *)
Definition setStateForHandle
  (handle : string) (vl : ValueLeft) (s : state.t) : state.t :=
  let value := value vl in
  let left := left vl in
  let valueLower := state.valueLower s in
  let valueUpper := state.valueUpper s in
  let leftLower := state.leftLower s in
  let leftUpper := state.leftUpper s in
  if String.eqb handle HandlePosition.LOWER then
    state.set_isValid true
      (state.set_leftLower
         (if ToBoolean valueUpper && gt value valueUpper
          then leftUpper else left)
         (state.set_valueLower
            (if ToBoolean valueUpper && gt value valueUpper
             then valueUpper else value)
            s))
  else
    state.set_isValid true
      (state.set_leftUpper
         (if ToBoolean valueLower && lt value valueLower
          then leftLower else left)
         (state.set_valueUpper
            (if ToBoolean valueLower && lt value valueLower
             then valueLower else value)
            s)).

(** [_onDrag(evt, activeHandle)] for an event that carries a
    [clientX]. *)
Definition _onDrag
  (clientX : float) (activeHandle : nullable string) (s : state.t)
  : state.t :=
  let activeHandle :=
    match activeHandle with
    | JS.value h => JS.value h
    | _ => state.activeHandle s
    end in
  if props.disabled this_props || props.readOnly this_props then s
  else
    let vl := calcValue (JS.value clientX) (state.value s) false in
    match
      if props.twoHandles this_props then handle_truthy activeHandle
      else None
    with
    | Some h => setStateForHandle h vl s
    | None =>
        state.set_isValid true
          (state.set_left (left vl) (state.set_value (value vl) s))
    end.

(** [onKeyDown(evt)]. *)
Definition onKeyDown (evt : KeyboardEvent) (s : state.t) : state.t :=
  if props.disabled this_props || props.readOnly this_props then s
  else
    match which evt with
    | None => s
    | Some key =>
        let step := nullish (props.step this_props) defaultProps.step in
        match
          match key with
          | ArrowDown | ArrowLeft => Some (- step)
          | ArrowUp | ArrowRight => Some step
          | otherKey => None   (* Ignore keys we don't want to handle *)
          end
        with
        | None => s
        | Some delta =>
            (* If shift was held, account for the stepMultiplier *)
            let delta :=
              if shiftKey evt
              then delta
                   * nullish (props.stepMultiplier this_props)
                       defaultProps.stepMultiplier
              else delta in
            match
              if props.twoHandles this_props
              then handle_truthy (state.activeHandle s)
              else None
            with
            | Some activeHandle =>
                let currentValue :=
                  if String.eqb activeHandle HandlePosition.LOWER
                  then state.valueLower s
                  else state.valueUpper s in
                let vl :=
                  calcValue undefined
                    (calcValueForDelta currentValue delta
                       (props.step this_props))
                    false in
                setStateForHandle activeHandle vl s
            | None =>
                let vl :=
                  calcValue undefined
                    (calcValueForDelta (state.value s) delta
                       (props.step this_props))
                    false in
                state.set_isValid true
                  (state.set_left (left vl) (state.set_value (value vl) s))
            end
        end
    end.

Definition onDragStop (s : state.t) : state.t :=
  if props.disabled this_props || props.readOnly this_props then s
  else
    state.set_activeHandle null
      (state.set_isValid true (state.set_needsOnRelease true s)).

(** The two-way binding of the text input. *)
Definition onChange (evt : option Event) (s : state.t) : state.t :=
  if props.disabled this_props || props.readOnly this_props then s
  else
    match evt with
    | Some {| target := Some tgt |} =>
        match target_value tgt with
        | Str text =>
            let targetValue := parseFloat text in
            let activeHandle :=
              nullish (handlePosition tgt) HandlePosition.LOWER in
            if is_nan targetValue then
              if props.twoHandles this_props
                 && String.eqb activeHandle HandlePosition.LOWER
              then state.set_valueLower (Str text) s
              else if props.twoHandles this_props
                      && String.eqb activeHandle HandlePosition.UPPER
              then state.set_valueUpper (Str text) s
              else state.set_value (Str text) s
            else
              let vl := calcValue undefined (Num targetValue) true in
              if props.twoHandles this_props
              then setStateForHandle activeHandle vl s
              else state.set_left (left vl)
                     (state.set_value (value vl) s)
        | _ => s
        end
    | _ => s
    end.

Definition componentDidMount (s : state.t) : state.t :=
  match boundingClientRect with
  | None => s
  | Some _ =>
      if props.twoHandles this_props then
        let lower := calcValue undefined (state.valueLower s) true in
        let upper := calcValue undefined (state.valueUpper s) true in
        state.set_leftUpper (left upper)
          (state.set_valueUpper (value upper)
             (state.set_leftLower (left lower)
                (state.set_valueLower (value lower) s)))
      else
        let vl := calcValue undefined (state.value s) true in
        state.set_left (left vl) (state.set_value (value vl) s)
  end.

(** The callbacks [componentDidUpdate] fires to the parent. *)
Inductive Call :=
| call_onChange (value valueLower valueUpper : val)
| call_onRelease (value : val).

(** [componentDidUpdate(prevProps, prevState)]: the callbacks fired
    and the state after the [setState] calls it makes (the styles it
    writes to the thumbs and the filled track are not part of the
    state). *)
Definition componentDidUpdate
  (prevProps : props.t) (prevState : state.t) (s : state.t)
  : list Call * state.t :=
  let changed :=
    negb (strict_eq (state.value prevState) (state.value s))
    || negb (strict_eq (state.valueLower prevState) (state.valueLower s))
    || negb (strict_eq (state.valueUpper prevState) (state.valueUpper s))
  in
  let calls1 :=
    if changed && props.onChange this_props
    then [call_onChange (state.value s) (state.valueLower s)
            (state.valueUpper s)]
    else [] in
  let '(calls2, s1) :=
    if state.needsOnRelease s && props.onRelease this_props
    then ([call_onRelease (state.value s)],
          state.set_needsOnRelease false s)
    else ([], s) in
  if negb (props_changed prevProps this_props)
  then (calls1 ++ calls2, s1)
  else
    let vl := calcValue undefined (props.value this_props) true in
    (calls1 ++ calls2,
     state.set_left (left vl) (state.set_value (value vl) s1)).

End Instance.

(** [static getDerivedStateFromProps(props, state)]: the [isValid] of
    the partial state it returns, or [None] when it returns [null].
    [invalid] is the [invalid] prop when that is a boolean. *)
Definition getDerivedStateFromProps
  (invalid : option bool) (s : state.t) : option bool :=
  if match invalid with Some true => true | _ => false end
     && state.isValid s
  then Some false
  else if match invalid with Some false => true | _ => false end
          && negb (state.isValid s)
  then Some true
  else None.

(** The state the component renders with: the partial state merged
    into it. *)
Definition derived (invalid : option bool) (s : state.t) : state.t :=
  match getDerivedStateFromProps invalid s with
  | Some isValid => state.set_isValid isValid s
  | None => s
  end.

Definition is_onChange (c : Call) : bool :=
  match c with call_onChange _ _ _ => true | call_onRelease _ => false end.

Definition is_onRelease (c : Call) : bool :=
  match c with call_onRelease _ => true | call_onChange _ _ _ => false end.

(** A value that is the number NaN. *)
Definition is_NaN (v : val) : bool :=
  match v with Num x => is_nan x | _ => false end.

(** A thumb position: a percentage, or NaN. *)
Definition percentage_or_nan (x : float) : Prop :=
  is_nan x = true \/ ((0 <=? x) = true /\ (x <=? 100) = true).

(** A single-handle state as the drag and the keys leave it: a number
    within [[min, max]] or NaN as value, a percentage or NaN as
    position, and marked valid. *)
Definition stepped (p : props.t) (s : state.t) : Prop :=
  (exists x,
      state.value s = Num x
      /\ (is_nan x = true
          \/ ((props.min p <=? x) = true /\ (x <=? props.max p) = true)))
  /\ percentage_or_nan (state.left s)
  /\ state.isValid s = true.

End Slider.

(* ================================================================= *)
(** ** FilterableMultiSelect *)

Module FilterableMultiSelect.

Import JS.
#[local] Set Implicit Arguments.

(** [selectionFeedback?: 'top' | 'fixed' | 'top-after-reopen']. *)
Inductive SelectionFeedback := top | fixed | top_after_reopen.

(** The state change types of Downshift the component looks at; any
    other type is [otherChange]. *)
Inductive StateChangeType :=
| keyDownArrowDown
| keyDownArrowUp
| InputKeyDownHome
| InputKeyDownEnd
| keyDownEscape
| changeInput
| keyDownEnter
| clickItem
| otherChange.

Definition type_eqb (a b : StateChangeType) : bool :=
  match a, b with
  | keyDownArrowDown, keyDownArrowDown
  | keyDownArrowUp, keyDownArrowUp
  | InputKeyDownHome, InputKeyDownHome
  | InputKeyDownEnd, InputKeyDownEnd
  | keyDownEscape, keyDownEscape
  | changeInput, changeInput
  | keyDownEnter, keyDownEnter
  | clickItem, clickItem
  | otherChange, otherChange => true
  | _, _ => false
  end.

(** The keys the input's [onKeyDown] matches. *)
Inductive Key :=
| Space | Enter | Delete | Escape | Tab | Home | End_ | otherKey.

Section Component.

Variable Item : Type.
(** [===] on items, as [Array.prototype.indexOf] uses it. *)
Variable Item_eqb : Item -> Item -> bool.

(** The [changes] Downshift reports to [onStateChange]. *)
Record Changes := {
  type : StateChangeType;
  changes_highlightedIndex : option Z;
  changes_selectedItems : list Item;
  selectedItem : nullable Item
}.

Record Props := {
  items : list Item;
  initialSelectedItems : list Item;
  selectionFeedback : SelectionFeedback;
  disabled : bool;
  (** [sortItems(items, { selectedItems, ... })] and
      [filterItems(items, { inputValue, ... })] *)
  sortItems : list Item -> list Item -> list Item;
  filterItems : list Item -> string -> list Item;
  (** whether the callback props are given *)
  onChange : bool;
  onMenuChange : bool;
  onInputValueChange : bool
}.

(** The [useState] cells of the component. *)
Record State := {
  isFocused : bool;
  isOpen : bool;
  prevOpen : bool;
  inputValue : string;
  topItems : list Item;
  inputFocused : bool;
  highlightedIndex : Z;
  currentSelectedItems : list Item
}.

(** What a handler does: it queues state updates and calls the
    callbacks of the parent and of the surrounding components. *)
Inductive Effect :=
| setIsFocused (b : bool)
| setIsOpen (b : bool)
| setPrevOpen (b : bool)
| setInputValue (v : string)
| setTopItems (l : list Item)
| setInputFocused (b : bool)
| setHighlightedIndex (i : Z)
| setCurrentSelectedItems (l : list Item)
| call_onChange (selectedItems : list Item)
| call_onMenuChange (open : bool)
| call_onInputValueChange (v : string)
| call_clearSelection
| call_focus_textInput.

Definition apply (s : State) (e : Effect) : State :=
  match e with
  | setIsFocused b =>
      Build_State b (isOpen s) (prevOpen s) (inputValue s) (topItems s)
        (inputFocused s) (highlightedIndex s) (currentSelectedItems s)
  | setIsOpen b =>
      Build_State (isFocused s) b (prevOpen s) (inputValue s)
        (topItems s) (inputFocused s) (highlightedIndex s)
        (currentSelectedItems s)
  | setPrevOpen b =>
      Build_State (isFocused s) (isOpen s) b (inputValue s)
        (topItems s) (inputFocused s) (highlightedIndex s)
        (currentSelectedItems s)
  | setInputValue v =>
      Build_State (isFocused s) (isOpen s) (prevOpen s) v (topItems s)
        (inputFocused s) (highlightedIndex s) (currentSelectedItems s)
  | setTopItems l =>
      Build_State (isFocused s) (isOpen s) (prevOpen s) (inputValue s)
        l (inputFocused s) (highlightedIndex s) (currentSelectedItems s)
  | setInputFocused b =>
      Build_State (isFocused s) (isOpen s) (prevOpen s) (inputValue s)
        (topItems s) b (highlightedIndex s) (currentSelectedItems s)
  | setHighlightedIndex i =>
      Build_State (isFocused s) (isOpen s) (prevOpen s) (inputValue s)
        (topItems s) (inputFocused s) i (currentSelectedItems s)
  | setCurrentSelectedItems l =>
      Build_State (isFocused s) (isOpen s) (prevOpen s) (inputValue s)
        (topItems s) (inputFocused s) (highlightedIndex s) l
  | _ => s
  end.

(** The queued updates applied in order. *)
Definition commit_updates (s : State) (es : list Effect) : State :=
  fold_left apply es s.

(** The calls of [onMenuChange] among the effects, in order. *)
Definition onMenuChange_calls (es : list Effect) : list bool :=
  flat_map
    (fun e => match e with call_onMenuChange b => [b] | _ => [] end) es.

(** The values given to [setIsOpen] among the effects, in order. *)
Definition isOpen_sets (es : list Effect) : list bool :=
  flat_map (fun e => match e with setIsOpen b => [b] | _ => [] end) es.

(** [array.indexOf(x)]. *)
Fixpoint indexOf_from (l : list Item) (x : Item) (i : Z) : Z :=
  match l with
  | [] => (-1)%Z
  | y :: r => if Item_eqb y x then i else indexOf_from r x (i + 1)%Z
  end.

Definition indexOf (l : list Item) (x : nullable Item) : Z :=
  match x with
  | value x => indexOf_from l x 0%Z
  | _ => (-1)%Z
  end.

(** [useState] initial values. *)
Definition initial (p : Props) (open : bool) : State :=
  {| isFocused := false;
     isOpen := open;
     prevOpen := open;
     inputValue := "";
     topItems := initialSelectedItems p;
     inputFocused := false;
     highlightedIndex := 0%Z;
     currentSelectedItems := initialSelectedItems p |}.

(** The handlers of one render: they close over the props and the
    state of that render. *)
Section Render.

Variable props : Props.
Variable s : State.
(** [textInput.current?.value] *)
Variable textInput : option string.

(** [{ top: selectedItems, fixed: [], 'top-after-reopen': topItems }
    [selectionFeedback]]. *)
Definition pinned (selectedItems : list Item) : list Item :=
  match selectionFeedback props with
  | top => selectedItems
  | fixed => []
  | top_after_reopen => topItems s
  end.

Definition handleOnChange (selectedItems : list Item) : list Effect :=
  [setCurrentSelectedItems selectedItems]
  ++ (if onChange props then [call_onChange selectedItems] else []).

Definition handleOnMenuChange (forceIsOpen : nullable bool)
  : list Effect :=
  let nextIsOpen := nullish forceIsOpen (negb (isOpen s)) in
  [setIsOpen nextIsOpen]
  ++ (if onMenuChange props then [call_onMenuChange nextIsOpen]
      else [])
  ++ (if negb (isOpen s) then [setHighlightedIndex 0%Z] else []).

Definition handleOnOuterClick : list Effect :=
  handleOnMenuChange (value false).

Definition handleOnStateChange (changes : Changes) : list Effect :=
  match type changes with
  | keyDownArrowDown | keyDownArrowUp
  | InputKeyDownHome | InputKeyDownEnd =>
      [setHighlightedIndex
         (match changes_highlightedIndex changes with
          | Some i => i
          | None => 0%Z
          end)]
      ++ (if type_eqb keyDownArrowDown (type changes)
             && negb (isOpen s)
          then handleOnMenuChange (value true) else [])
  | keyDownEscape =>
      handleOnMenuChange (value false) ++ [setHighlightedIndex 0%Z]
  | changeInput => [setHighlightedIndex 0%Z]
  | keyDownEnter =>
      if negb (isOpen s) then [setHighlightedIndex 0%Z] else []
  | clickItem =>
      if isOpen s then
        let sortedItems :=
          sortItems props
            (filterItems props (items props) (inputValue s))
            (pinned (changes_selectedItems changes)) in
        let sortedSelectedIndex :=
          indexOf sortedItems (selectedItem changes) in
        [setHighlightedIndex sortedSelectedIndex]
      else []
  | otherChange => []
  end.

Definition clearInputValue (escape : bool) : list Effect :=
  let value := textInput in
  (if match value with
      | Some v => Nat.eqb (String.length v) 1
      | None => false
      end || escape
   then [setInputValue ""]
   else [setInputValue
           (match value with Some v => v | None => "" end)])
  ++ (match textInput with
      | Some _ => [call_focus_textInput]
      | None => []
      end).

Definition handleOnInputValueChange
  (inputValue : string) (type : StateChangeType) : list Effect :=
  (if onInputValueChange props
   then [call_onInputValueChange inputValue] else [])
  ++ (if negb (type_eqb type changeInput) then []
      else
        [setInputValue inputValue]
        ++ (if negb (String.eqb inputValue "") && negb (isOpen s)
            then handleOnMenuChange (value true)
            else if String.eqb inputValue "" && isOpen s
            then handleOnMenuChange (value false)
            else [])).

(** The toggle button's [onClick]. *)
Definition button_onClick : list Effect :=
  handleOnMenuChange (value (negb (isOpen s)))
  ++ (match textInput with
      | Some _ => [call_focus_textInput]
      | None => []
      end).

(** The [onClick], [onKeyDown], [onFocus] and [onBlur] given to
    the [<input>]. *)
Definition input_onClick : list Effect :=
  handleOnMenuChange (value true).

Definition input_onKeyDown (key : Key) : list Effect :=
  (match key with
   | Enter => handleOnMenuChange (value true)
   | _ => []
   end)
  ++ (if negb (disabled props) then
        match key with
        | Delete | Escape =>
            let escape :=
              match key with Escape => true | _ => false end in
            if isOpen s
            then handleOnMenuChange (value true)
                 ++ clearInputValue escape
            else clearInputValue escape ++ [call_clearSelection]
        | _ => []
        end
      else [])
  ++ (match key with
      | Tab => handleOnMenuChange (value false)
      | _ => []
      end).

Definition input_onFocus : list Effect := [setInputFocused true].

Definition input_onBlur : list Effect :=
  [setInputFocused false; setInputValue ""].

(** [handleFocus(evt)], the [onFocus] and [onBlur] of the list box in
    a fluid form: [on_selection] tells whether the target is the close
    icon of a tag or the selection, [focus] whether the event is a
    [focus] event. *)
Definition handleFocus (evt : option (bool * bool)) : list Effect :=
  match evt with
  | Some (on_selection, focus) =>
      if on_selection then [setIsFocused false] else [setIsFocused focus]
  | None => [setIsFocused false]
  end.

(** The items of the menu in the order they are shown, when the
    menu is open. *)
Definition menu (selectedItems : list Item) : option (list Item) :=
  if isOpen s then
    Some (sortItems props
            (filterItems props (items props) (inputValue s))
            (pinned selectedItems))
  else None.

End Render.

(** [if (prevOpen !== open) { setIsOpen(open); setPrevOpen(open); }]
    in the body of the component. *)
Definition sync_open (open : bool) (s : State) : State :=
  if Bool.eqb (prevOpen s) open then s
  else commit_updates s [setIsOpen open; setPrevOpen open].

(** [useEffect(() => { if (!isOpen) setTopItems(currentSelectedItems) },
    [currentSelectedItems, isOpen, setTopItems])]. *)
Definition topItems_effect (s : State) : list Effect :=
  if negb (isOpen s) then [setTopItems (currentSelectedItems s)]
  else [].

Fixpoint list_eqb (a b : list Item) : bool :=
  match a, b with
  | [], [] => true
  | x :: a', y :: b' => Item_eqb x y && list_eqb a' b'
  | _, _ => false
  end.

(** A mounted component: its state, and the dependencies the effect
    last ran with ([None] before the first commit). *)
Record Instance := {
  state : State;
  deps : option (list Item * bool)
}.

(** After a render is committed the effect runs if one of its
    dependencies changed, and its update is rendered in turn. *)
Definition commit (i : Instance) : Instance :=
  let s := state i in
  let now := (currentSelectedItems s, isOpen s) in
  let changed :=
    match deps i with
    | None => true
    | Some (items, open) =>
        negb (list_eqb items (currentSelectedItems s)
              && Bool.eqb open (isOpen s))
    end in
  if changed
  then {| state := commit_updates s (topItems_effect s);
          deps := Some now |}
  else i.

Definition mount (p : Props) (open : bool) : Instance :=
  commit {| state := initial p open; deps := None |}.

(** What the user and the surrounding components do to a mounted
    component. *)
Inductive Event :=
| Selection_onChange (selectedItems : list Item)
| Downshift_onStateChange (changes : Changes)
| Downshift_onInputValueChange (v : string) (type : StateChangeType)
| Downshift_onOuterClick
| click_button
| click_input
| keyDown_input (key : Key)
| focus_input
| blur_input
| clear_input (escape : bool)
| focus_listBox (evt : option (bool * bool)).

Definition handle
  (p : Props) (textInput : option string) (s : State) (ev : Event)
  : list Effect :=
  match ev with
  | Selection_onChange l => handleOnChange p l
  | Downshift_onStateChange c => handleOnStateChange p s c
  | Downshift_onInputValueChange v t =>
      handleOnInputValueChange p s v t
  | Downshift_onOuterClick => handleOnOuterClick p s
  | click_button => button_onClick p s textInput
  | click_input => input_onClick p s
  | keyDown_input k => input_onKeyDown p s textInput k
  | focus_input => input_onFocus
  | blur_input => input_onBlur
  | clear_input escape => clearInputValue textInput escape
  | focus_listBox evt => handleFocus evt
  end.

(** One update of the component: the handlers of the current render
    that run before the next one (none when only the parent renders
    again), the [open] prop of the next render, and the text the
    input holds. *)
Record Update := {
  events : list Event;
  open : bool;
  textInput : option string
}.

(** The component as it renders for an update, before the effect runs:
    the handlers run against the state of the current render, their
    queued updates are applied, and the component renders again with
    the [open] prop it is given. *)
Definition rendered (p : Props) (i : Instance) (u : Update) : Instance :=
  let s := state i in
  let s1 :=
    commit_updates s (flat_map (handle p (textInput u) s) (events u)) in
  {| state := sync_open (open u) s1; deps := deps i |}.

(** One update: the render, then the effect. *)
Definition step (p : Props) (i : Instance) (u : Update) : Instance :=
  commit (rendered p i u).

Definition run (p : Props) (i : Instance) (us : list Update)
  : Instance :=
  fold_left (step p) us i.

(** The menu is open after each of the updates. *)
Fixpoint stays_open (p : Props) (i : Instance) (us : list Update)
  : Prop :=
  match us with
  | [] => True
  | u :: rest =>
      isOpen (state (step p i u)) = true
      /\ stays_open p (step p i u) rest
  end.

(** The selections [Selection] reports among the events, in order. *)
Definition selections (evs : list Event) : list (list Item) :=
  flat_map
    (fun ev => match ev with Selection_onChange l => [l] | _ => [] end)
    evs.

(** Whether an effect leaves [topItems] alone. *)
Definition keeps_topItems (e : Effect) : bool :=
  match e with setTopItems _ => false | _ => true end.

(** The dependencies recorded for a closed menu are what [topItems]
    holds. *)
Definition recorded (i : Instance) : Prop :=
  match deps i with
  | Some (items, false) => topItems (state i) = items
  | _ => True
  end.

End Component.

Arguments setIsFocused {Item} b.
Arguments setIsOpen {Item} b.
Arguments setPrevOpen {Item} b.
Arguments setInputValue {Item} v.
Arguments setTopItems {Item} l.
Arguments setInputFocused {Item} b.
Arguments setHighlightedIndex {Item} i.
Arguments setCurrentSelectedItems {Item} l.
Arguments call_onChange {Item} selectedItems.
Arguments call_onMenuChange {Item} open.
Arguments call_onInputValueChange {Item} v.
Arguments call_clearSelection {Item}.
Arguments call_focus_textInput {Item}.
Arguments Selection_onChange {Item} selectedItems.
Arguments Downshift_onStateChange {Item} changes.
Arguments Downshift_onInputValueChange {Item} v type.
Arguments Downshift_onOuterClick {Item}.
Arguments click_button {Item}.
Arguments click_input {Item}.
Arguments keyDown_input {Item} key.
Arguments focus_input {Item}.
Arguments blur_input {Item}.
Arguments clear_input {Item} escape.
Arguments focus_listBox {Item} evt.
Arguments keeps_topItems {Item} e.
Arguments recorded {Item} i.
Arguments isOpen_sets {Item} es.
Arguments selections {Item} evs.

End FilterableMultiSelect.

(* ================================================================= *)
(** ** ModalFooter *)

Module ModalFooter.

Import JS.

(** The JavaScript values a prop can hold. *)
#[local] Unset Elimination Schemes.
Inductive jsvalue :=
| JUndefined
| JNull
| JBool (b : bool)
| JNumber (x : float)
| JString (s : string)
| JFunction (name : string)
| JArray (elements : list jsvalue)
| JObject (properties : list (string * jsvalue)).
#[local] Set Elimination Schemes.

Definition ToBoolean (v : jsvalue) : bool :=
  match v with
  | JUndefined | JNull => false
  | JBool b => b
  | JNumber x => truthy x
  | JString s => negb (String.eqb s "")
  | JFunction _ | JArray _ | JObject _ => true
  end.

(** [Array.isArray(v)]. *)
Definition isArray (v : jsvalue) : bool :=
  match v with JArray _ => true | _ => false end.

(** An array of exactly two elements. *)
Definition two_buttons (v : jsvalue) : bool :=
  match v with
  | JArray [_; _] => true
  | _ => false
  end.

(** [o[k]] on the properties of an object. *)
Fixpoint get (o : list (string * jsvalue)) (k : string) : jsvalue :=
  match o with
  | [] => JUndefined
  | (k', v) :: r => if String.eqb k' k then v else get r k
  end.

Record Error := { message : string }.

(** How a function ends: it returns, or throws a [TypeError]. *)
Inductive Completion (A : Type) :=
| Return (a : A)
| TypeError.
Arguments Return {A} a.
Arguments TypeError {A}.

(** A call [PropTypes.checkPropTypes(shape, value, location,
    componentName)] with the [{ buttonText, onClick }] shape; it only
    logs warnings. *)
Record Check := {
  checked : jsvalue;
  location : string;
  componentName : string
}.

Module propTypes.

(** The validator of the [secondaryButtons] prop: what it returns
    ([null] or an [Error]) and the shape checks it made. *)
Definition secondaryButtons
  (props : list (string * jsvalue)) (propName componentName : string)
  : list Check * Completion (nullable Error) :=
  let secondaryButtons := get props "secondaryButtons" in
  if ToBoolean secondaryButtons then
    if negb (isArray secondaryButtons)
       || match secondaryButtons with
          | JArray l => negb (Nat.eqb (List.length l) 2)
          | _ => true
          end
    then
      ([], Return (value
             {| message :=
                  (propName
                   ++ " needs to be an array of two button config objects")
                  %string
             |}))
    else
      match get props propName with
      | JArray buttons =>
          (map (fun secondaryButton =>
                  {| checked := secondaryButton;
                     location := propName;
                     componentName := componentName |})
             buttons,
           Return null)
      | _ => ([], TypeError)
      end
  else ([], Return null).

End propTypes.

(** The [onClick] of a rendered secondary button. *)
Inductive Handler :=
| given (onButtonClick : jsvalue)
| handleRequestClose.

Record Button := {
  kind : string;
  onClick : Handler;
  children : jsvalue
}.

Definition property (v : jsvalue) (k : string) : Completion jsvalue :=
  match v with
  | JUndefined | JNull => TypeError
  | JObject o => Return (get o k)
  | _ => Return JUndefined
  end.

Fixpoint map_buttons (l : list jsvalue) : Completion (list Button) :=
  match l with
  | [] => Return []
  | b :: r =>
      match property b "buttonText", property b "onClick" with
      | Return buttonText, Return onButtonClick =>
          match map_buttons r with
          | Return bs =>
              Return
                ({| kind := "secondary";
                    onClick :=
                      if ToBoolean onButtonClick then given onButtonClick
                      else handleRequestClose;
                    children := buttonText |} :: bs)
          | TypeError => TypeError
          end
      | _, _ => TypeError
      end
  end.

(** The secondary buttons the footer renders. *)
Definition SecondaryButtonSet
  (secondaryButtons secondaryButtonText : jsvalue)
  : Completion (list Button) :=
  match secondaryButtons with
  | JArray l =>
      if Nat.leb (List.length l) 2 then map_buttons l
      else if ToBoolean secondaryButtonText then
        Return [{| kind := "secondary";
                   onClick := handleRequestClose;
                   children := secondaryButtonText |}]
      else Return []
  | _ =>
      if ToBoolean secondaryButtonText then
        Return [{| kind := "secondary";
                   onClick := handleRequestClose;
                   children := secondaryButtonText |}]
      else Return []
  end.

(** [Array.isArray(secondaryButtons) && secondaryButtons.length === 2],
    the condition of the three-button class of the footer. *)
Definition three_button (secondaryButtons : jsvalue) : bool :=
  isArray secondaryButtons
  && match secondaryButtons with
     | JArray l => Nat.eqb (List.length l) 2
     | _ => false
     end.

(** The buttons the footer renders before its children: the secondary
    buttons, then the primary button when [primaryButtonText] is
    truthy. *)
Definition render
  (secondaryButtons secondaryButtonText primaryButtonText
     onRequestSubmit danger : jsvalue)
  : Completion (list Button) :=
  match SecondaryButtonSet secondaryButtons secondaryButtonText with
  | Return secondary =>
      Return
        (secondary
         ++ (if ToBoolean primaryButtonText then
               [{| kind := if ToBoolean danger then "danger" else "primary";
                   onClick := given onRequestSubmit;
                   children := primaryButtonText |}]
             else []))
  | TypeError => TypeError
  end.

(** [null] or [undefined]. *)
Definition is_nullish (v : jsvalue) : bool :=
  match v with JUndefined | JNull => true | _ => false end.

(** A footer with a back and a cancel button besides the primary
    one. *)
Definition back_and_cancel : jsvalue :=
  JArray [JObject [("buttonText"%string, JString "Back");
                   ("onClick"%string, JFunction "goBack")];
          JObject [("buttonText"%string, JString "Cancel")]].

End ModalFooter.

(* ================================================================= *)
(** ** useDisclosure *)

Module Disclosure.

(** What [useDisclosure(id)] returns in a render whose state cell holds
    [open]; [onClick] is given as the values it passes to [setOpen]. *)
Record t := {
  aria_controls : string;
  aria_expanded : bool;
  onClick : list bool;
  content_id : string;
  open : bool
}.

Definition useDisclosure (id : string) (cell : bool) : t :=
  {| aria_controls := id;
     aria_expanded := cell;
     onClick := [negb cell];
     content_id := id;
     open := cell |}.

(** [useState(false)]. *)
Definition initial : bool := false.

(** The state cell after the queued [setOpen] calls. *)
Definition commit (cell : bool) (queued : list bool) : bool :=
  fold_left (fun _ v => v) queued cell.

(** One render in which the button is clicked [clicks] times before
    the component renders again: every click runs the [onClick] of
    that render. *)
Definition update (id : string) (cell : bool) (clicks : nat) : bool :=
  commit cell
    (List.concat (repeat (onClick (useDisclosure id cell)) clicks)).

Definition run (id : string) (cell : bool) (clicks : list nat) : bool :=
  fold_left (update id) clicks cell.

(** The renders in which the button was clicked. *)
Definition clicked (clicks : list nat) : nat :=
  List.length (filter (fun n => negb (Nat.eqb n 0)) clicks).

End Disclosure.

(* ================================================================= *)
(** ** Sketch: shared colour styles *)

Module SketchColors.

#[local] Open Scope string_scope.
#[local] Set Implicit Arguments.

(** An object as its own properties in enumeration order. *)
Definition object (A : Type) := list (string * A).

Fixpoint get {A} (o : object A) (k : string) : option A :=
  match o with
  | [] => None
  | (k', v) :: r => if String.eqb k' k then Some v else get r k
  end.

(** [Object.keys(o)]. *)
Definition keys {A} (o : object A) : list string := map fst o.

Fixpoint replace_dash (s : string) : string :=
  match s with
  | EmptyString => EmptyString
  | String c r =>
      String (if Ascii.eqb c "-" then " "%char else c) (replace_dash r)
  end.

(** [parts.filter(Boolean).join(sep)] on strings that may be absent. *)
Definition join_truthy (sep : string) (parts : list (option string))
  : string :=
  String.concat sep
    (flat_map
       (fun p =>
          match p with
          | Some s => if String.eqb s "" then [] else [s]
          | None => []
          end)
       parts).

(** Format name for shared layer styles or color variables. *)
Definition formatColorName
  (name : string) (grade : option string) (formatFor : string) : string :=
  let formattedName := replace_dash name in
  if String.eqb formatFor "sharedLayerStyle" then
    join_truthy " / " [Some "color"; Some formattedName; grade]
  else if String.eqb formatFor "colorVariable" then
    join_truthy " "
      [Some (match grade with
             | Some g =>
                 if String.eqb g "" then formattedName
                 else (formattedName ++ "/" ++ formattedName)%string
             | None => formattedName
             end);
       grade]
  else "".

Section Sync.

Variables Color SharedStyle Document : Type.

(** [colors] of [@carbon/colors]: each swatch with its grades. *)
Variable colors : object (object Color).
(** [formatTokenName] of [@carbon/themes]. *)
Variable formatTokenName : string -> string.
(** [syncColorStyle({ document, name, color })] of
    [../tools/sharedStyles]: it updates the shared styles of the
    document and returns the style. *)
Variable syncColorStyle :
  Document -> string -> option Color -> Document * SharedStyle.

(** [const { black, white, orange, yellow, ...swatches } = colors]. *)
Definition black := get colors "black".
Definition white := get colors "white".
Definition orange := get colors "orange".
Definition yellow := get colors "yellow".

Definition separated (k : string) : bool :=
  String.eqb k "black" || String.eqb k "white"
  || String.eqb k "orange" || String.eqb k "yellow".

Definition swatches : object (object Color) :=
  filter (fun kv => negb (separated (fst kv))) colors.

(** [array.map(f)] where [f] works on the document. *)
Fixpoint map_sync {A B}
  (f : A -> Document -> Document * B) (l : list A) (document : Document)
  : Document * list B :=
  match l with
  | [] => (document, [])
  | x :: r =>
      let '(document, y) := f x document in
      let '(document, ys) := map_sync f r document in
      (document, y :: ys)
  end.

(** [array.flatMap(f)] where [f] works on the document. *)
Fixpoint flatMap_sync {A B}
  (f : A -> Document -> Document * list B) (l : list A)
  (document : Document) : Document * list B :=
  match l with
  | [] => (document, [])
  | x :: r =>
      let '(document, ys) := f x document in
      let '(document, zs) := flatMap_sync f r document in
      (document, (ys ++ zs)%list)
  end.

(** [swatches[swatchName]]. *)
Definition swatch (swatchName : string) : object Color :=
  match get swatches swatchName with
  | Some grades => grades
  | None => []
  end.

(** Sync color shared styles to the given document and return the
    result; [None] when reading a grade of a swatch that [colors]
    lacks throws. *)
Definition syncColorStyles (document : Document)
  : Document * option (list SharedStyle) :=
  let '(document, sharedStyles) :=
    flatMap_sync
      (fun swatchName =>
         let name := formatTokenName swatchName in
         map_sync
           (fun grade document =>
              syncColorStyle document
                (formatColorName name (Some grade) "sharedLayerStyle")
                (get (swatch swatchName) grade))
           (keys (swatch swatchName)))
      (keys swatches) document in
  match black, white, orange, yellow with
  | Some black, Some white, Some orange, Some yellow =>
      let '(document, singleColors) :=
        map_sync
          (fun '(name, color) document =>
             syncColorStyle document
               (formatColorName name None "sharedLayerStyle") color)
          [("black", get black "100");
           ("white", get white "0");
           ("orange", get orange "40");
           ("yellow", get yellow "30")]
          document in
      (document, Some (sharedStyles ++ singleColors)%list)
  | _, _, _, _ => (document, None)
  end.

(** Sync color variables (Swatches) in the given document and return
    an array; [None] when reading a grade of a swatch that [colors]
    lacks throws. *)
Definition syncColorVariables
  (Swatch : Type)
  (syncColorVariable :
     Document -> string -> option Color -> Document * Swatch)
  (document : Document) : Document * option (list Swatch) :=
  let '(document, colorVariables) :=
    flatMap_sync
      (fun swatchName =>
         let name := formatTokenName swatchName in
         map_sync
           (fun grade document =>
              syncColorVariable document
                (formatColorName name (Some grade) "colorVariable")
                (get (swatch swatchName) grade))
           (keys (swatch swatchName)))
      (keys swatches) document in
  match black, white, orange, yellow with
  | Some black, Some white, Some orange, Some yellow =>
      let '(document, singleColors) :=
        map_sync
          (fun '(name, color) document =>
             syncColorVariable document
               (formatColorName name None "colorVariable") color)
          [("black", get black "100");
           ("white", get white "0");
           ("orange", get orange "40");
           ("yellow", get yellow "30")]
          document in
      (document, Some (colorVariables ++ singleColors)%list)
  | _, _, _, _ => (document, None)
  end.

(** The style synced for a grade of a swatch. *)
Definition graded (pair : string * string) (document : Document)
  : Document * SharedStyle :=
  syncColorStyle document
    (formatColorName (formatTokenName (fst pair)) (Some (snd pair))
       "sharedLayerStyle")
    (get (swatch (fst pair)) (snd pair)).

(** The style synced for a colour under a name. *)
Definition named (entry : string * option Color) (document : Document)
  : Document * SharedStyle :=
  syncColorStyle document (fst entry) (snd entry).

(** The (swatch, grade) pairs of the colour tokens. *)
Definition pairs : list (string * string) :=
  flat_map
    (fun swatchName =>
       map (fun grade => (swatchName, grade)) (keys (swatch swatchName)))
    (keys swatches).

End Sync.

End SketchColors.

(* ================================================================= *)
(** ** ErrorBoundary *)

Module ErrorBoundary.

#[local] Set Implicit Arguments.

Section Boundary.

(** What is rendered, and what a failing render throws. *)
Variables Node Exception : Type.

(** Rendering a subtree gives its output or throws. *)
Inductive Outcome :=
| rendered (n : Node)
| thrown (e : Exception).

Record State := { hasError : bool }.

(** Modelled from the spec: the ErrorBoundary component (the source
    has only its export and its end-to-end test).  "React error
    boundaries for render-time exceptions; no retry, recovery, or
    partial-failure semantics beyond standard UI error boundary
    fallback rendering": an exception thrown while the children
    render is caught, the boundary records it and renders the
    fallback in their place; once it has caught an exception it
    keeps rendering the fallback and does not render the children
    again. *)
Definition render
  (fallback : Node) (children : Outcome) (s : State) : Node * State :=
  if hasError s then (fallback, s)
  else
    match children with
    | rendered n => (n, s)
    | thrown _ => (fallback, {| hasError := true |})
    end.

Definition initial : State := {| hasError := false |}.

(** The output of the last of a series of renders, each with what
    its children do. *)
Fixpoint renders
  (fallback : Node) (s : State) (first : Outcome) (rest : list Outcome)
  : Node * State :=
  match rest with
  | [] => render fallback first s
  | next :: rest' =>
      renders fallback (snd (render fallback first s)) next rest'
  end.

End Boundary.

Arguments rendered {Node Exception} n.
Arguments thrown {Node Exception} e.

End ErrorBoundary.

(* ================================================================= *)
(** ** Binary64 values used in the bounds *)

Module Binary64.

Open Scope Z_scope.

Definition fexp64 (e : Z) : Z := Z.max (e - 53) (-1074).

(** What [binary_round_aux] builds from a mantissa and an exponent. *)
Definition pack (m e : Z) : spec_float :=
  match m with
  | 0 => S754_zero false
  | Zpos p =>
      if e <=? 971 then S754_finite false p e else S754_infinity false
  | Zneg _ => S754_nan
  end.

Definition SF100 : spec_float := S754_finite false 7036874417766400 (-46).
Definition SF1 : spec_float := S754_finite false 4503599627370496 (-52).

(** Where a value that is not NaN stands in the order of the numbers:
    its class (the infinities, the negative and the positive values,
    zero of either sign), then its exponent and its mantissa, the two
    negated for a negative value. *)
Definition rank (x : spec_float) : Z * Z * Z :=
  match x with
  | S754_nan => (0, 0, 0)
  | S754_zero _ => (0, 0, 0)
  | S754_infinity true => (-2, 0, 0)
  | S754_infinity false => (2, 0, 0)
  | S754_finite true m e => (-1, - e, - Zpos m)
  | S754_finite false m e => (1, e, Zpos m)
  end.

(** The lexicographic order of the ranks. *)
Definition before (a b : Z * Z * Z) : Prop :=
  fst (fst a) < fst (fst b)
  \/ (fst (fst a) = fst (fst b)
      /\ (snd (fst a) < snd (fst b)
          \/ (snd (fst a) = snd (fst b) /\ snd a < snd b))).

End Binary64.

(* ================================================================= *)
(** ** Components used as examples *)

Module SliderExamples.

Import JS Slider.
Open Scope float_scope.

(** A slider from 0 to 100 with the default step. *)
Definition percent : props.t :=
  {| props.min := 0;
     props.max := 100;
     props.step := JS.value 1;
     props.stepMultiplier := JS.value 4;
     props.disabled := false;
     props.readOnly := false;
     props.twoHandles := false;
     props.value := Num 50;
     props.valueLower := Undefined;
     props.valueUpper := Undefined;
     props.onChange := false;
     props.onRelease := false |}.

(** A track 200 pixels wide that starts 10 pixels from the left. *)
Definition track : option DOMRect :=
  Some {| rect_left := 10; rect_right := 210 |}.

(** A change event of the text input. *)
Definition typed (text : string) (handle : nullable string)
  : option Event :=
  Some {| target :=
            Some {| target_value := Str text;
                    handlePosition := handle |} |}.

(** A range slider from 0 to 100 with both handles at 0. *)
Definition range_at_zero : props.t :=
  {| props.min := 0;
     props.max := 100;
     props.step := JS.value 1;
     props.stepMultiplier := JS.value 4;
     props.disabled := false;
     props.readOnly := false;
     props.twoHandles := true;
     props.value := Undefined;
     props.valueLower := Num 0;
     props.valueUpper := Num 0;
     props.onChange := false;
     props.onRelease := false |}.

(** C9, as stated, fails on a disabled slider: [onChange] returns
    before it looks at the event, and the state keeps its value. *)
Definition disabled_percent : props.t :=
  {| props.min := 0;
     props.max := 100;
     props.step := JS.value 1;
     props.stepMultiplier := JS.value 4;
     props.disabled := true;
     props.readOnly := false;
     props.twoHandles := false;
     props.value := Num 50;
     props.valueLower := Undefined;
     props.valueUpper := Undefined;
     props.onChange := false;
     props.onRelease := false |}.

(** A slider whose bounds are finite and whose value lies between
    them, but whose range overflows. *)
Definition huge : props.t :=
  {| props.min := - of_Z (10 ^ 308);
     props.max := of_Z (10 ^ 308);
     props.step := JS.value 1;
     props.stepMultiplier := JS.value 4;
     props.disabled := false;
     props.readOnly := false;
     props.twoHandles := false;
     props.value := Num (of_Z (10 ^ 308));
     props.valueLower := Undefined;
     props.valueUpper := Undefined;
     props.onChange := false;
     props.onRelease := false |}.

(** The same slider given a value above its range. *)
Definition above : props.t :=
  {| props.min := 0;
     props.max := 100;
     props.step := JS.value 1;
     props.stepMultiplier := JS.value 4;
     props.disabled := false;
     props.readOnly := false;
     props.twoHandles := false;
     props.value := Num 250;
     props.valueLower := Undefined;
     props.valueUpper := Undefined;
     props.onChange := false;
     props.onRelease := false |}.

(** A slider from -10 to 10 whose value is 0. *)
Definition centered : props.t :=
  {| props.min := -10;
     props.max := 10;
     props.step := JS.value 1;
     props.stepMultiplier := JS.value 4;
     props.disabled := false;
     props.readOnly := false;
     props.twoHandles := false;
     props.value := Num 0;
     props.valueLower := Undefined;
     props.valueUpper := Undefined;
     props.onChange := true;
     props.onRelease := true |}.

(** A range slider from 0 to 100 with its handles at 20 and 80. *)
Definition range_20_80 : state.t :=
  {| state.value := Undefined;
     state.valueLower := Num 20;
     state.valueUpper := Num 80;
     state.left := 0;
     state.leftLower := 20;
     state.leftUpper := 80;
     state.needsOnRelease := false;
     state.isValid := true;
     state.activeHandle := JS.value HandlePosition.LOWER |}.

End SliderExamples.

Module MenuExamples.

Import JS FilterableMultiSelect.
#[local] Open Scope string_scope.

(** A select of three fruits, opened with the second item
    highlighted. *)
Definition fruits : Props string :=
  {| items := ["apple"; "banana"; "cherry"]%string;
     initialSelectedItems := ["banana"]%string;
     selectionFeedback := top_after_reopen;
     disabled := false;
     sortItems := fun items selectedItems =>
                    (selectedItems
                     ++ filter
                          (fun i =>
                             negb (existsb (String.eqb i) selectedItems))
                          items)%list;
     filterItems := fun items inputValue =>
                      filter (String.prefix inputValue) items;
     onChange := true;
     onMenuChange := true;
     onInputValueChange := false |}.

Definition opened : State string :=
  {| isFocused := true;
     isOpen := true;
     prevOpen := false;
     inputValue := "";
     topItems := ["banana"]%string;
     inputFocused := true;
     highlightedIndex := 2%Z;
     currentSelectedItems := ["banana"]%string |}.

Definition escape : Changes string :=
  {| type := keyDownEscape;
     changes_highlightedIndex := None;
     changes_selectedItems := [];
     selectedItem := undefined |}.

Definition closed : State string :=
  {| isFocused := true;
     isOpen := false;
     prevOpen := false;
     inputValue := "";
     topItems := ["banana"]%string;
     inputFocused := true;
     highlightedIndex := 1%Z;
     currentSelectedItems := ["banana"]%string |}.

(** Downshift reports the arrow-down key with the third item
    highlighted. *)
Definition arrow_down : Changes string :=
  {| type := keyDownArrowDown;
     changes_highlightedIndex := Some 2%Z;
     changes_selectedItems := [];
     selectedItem := undefined |}.

(** The parent opens the menu in the render in which the user clicks
    outside of it. *)
Definition outer_click_while_opening : Update string :=
  {| events := [Downshift_onOuterClick];
     open := true;
     textInput := Some "" |}.

(** The menu of [fruits] is opened with a click on the input, and
    "cherry" is selected while it is open. *)
Definition open_and_select : list (Update string) :=
  [ {| events := [click_input]; open := false; textInput := Some "" |};
    {| events := [Selection_onChange ["banana"; "cherry"]%string];
       open := false;
       textInput := Some "" |} ].

End MenuExamples.

Module SketchExamples.

Import SketchColors.
#[local] Open Scope string_scope.

(** A document as the styles synced to it so far, and a style as its
    name and colour. *)
Definition sync
  (document : list (string * option string))
  (name : string) (color : option string)
  : list (string * option string) * (string * option string) :=
  ((document ++ [(name, color)])%list, (name, color)).

(** The same for colours of any type. *)
Definition recording {Color : Type}
  (document : list (string * option Color))
  (name : string) (color : option Color)
  : list (string * option Color) * (string * option Color) :=
  ((document ++ [(name, color)])%list, (name, color)).

Definition kebab (tokenName : string) : string :=
  if String.eqb tokenName "coolGray" then "cool-gray" else tokenName.

Definition palette : object (object string) :=
  [("black", [("100", "#000000")]);
   ("blue", [("10", "#edf5ff"); ("20", "#d0e2ff")]);
   ("coolGray", [("10", "#f2f4f8")]);
   ("orange", [("40", "#ff832b")]);
   ("white", [("0", "#ffffff")]);
   ("yellow", [("30", "#f1c21b")])].

(** [palette] without its yellow swatch. *)
Definition palette_without_yellow_swatch : object (object string) :=
  [("black", [("100", "#000000")]);
   ("blue", [("10", "#edf5ff"); ("20", "#d0e2ff")]);
   ("orange", [("40", "#ff832b")]);
   ("white", [("0", "#ffffff")])].

End SketchExamples.

(* ================================================================= *)
(** ** Tactics *)

Module Tactics.

Ltac split_conditions :=
  repeat match goal with
         | |- context [if ?b then _ else _] => destruct b
         end.

(** Facts about ranks become facts about their three components. *)
Ltac rank_components :=
  repeat match goal with
         | |- context [Binary64.rank ?x] =>
             let r := fresh "r" in
             set (r := Binary64.rank x) in *; clearbody r;
             destruct r as [[? ?] ?]
         | H : context [Binary64.rank ?x] |- _ =>
             let r := fresh "r" in
             set (r := Binary64.rank x) in *; clearbody r;
             destruct r as [[? ?] ?]
         end;
  unfold Binary64.before in *; simpl fst in *; simpl snd in *;
  repeat match goal with
         | H : (_, _, _) = (_, _, _) |- _ => injection H as ? ? ?
         end.

End Tactics.

(* ================================================================= *)
(** ** Order facts about binary64 values *)

Module FloatOrder.

Import JS.
Open Scope float_scope.

Lemma SFcompare_antisym x y :
  SFcompare y x = option_map CompOpp (SFcompare x y).
Proof.
  destruct x as [sx|sx| |sx mx ex], y as [sy|sy| |sy my ey];
    try destruct sx; try destruct sy; simpl; try reflexivity.
  - rewrite (Z.compare_antisym ey ex).
    destruct (ey ?= ex)%Z; simpl; try reflexivity.
    rewrite (Pos.compare_cont_antisym mx my Eq). simpl.
    destruct (Pos.compare_cont Eq my mx); reflexivity.
  - rewrite (Z.compare_antisym ey ex).
    destruct (ey ?= ex)%Z; simpl; try reflexivity.
    rewrite (Pos.compare_cont_antisym mx my Eq). simpl.
    destruct (Pos.compare_cont Eq my mx); reflexivity.
Qed.

Lemma SFcompare_refl x : x <> S754_nan -> SFcompare x x = Some Eq.
Proof.
  destruct x as [s|s| |s m e]; try destruct s; simpl; try congruence;
    intros _; rewrite Z.compare_refl, Pos.compare_cont_refl; reflexivity.
Qed.

Lemma is_nan_spec x : is_nan x = true <-> Prim2SF x = S754_nan.
Proof.
  unfold is_nan. rewrite eqb_spec. unfold SFeqb.
  destruct (Prim2SF x) as [s|s| |s m e] eqn:E.
  - destruct s; simpl; split; congruence.
  - destruct s; simpl; split; congruence.
  - simpl. tauto.
  - rewrite SFcompare_refl by congruence. simpl. split; congruence.
Qed.

Lemma is_nan_false x : is_nan x = false <-> Prim2SF x <> S754_nan.
Proof.
  rewrite <- is_nan_spec. destruct (is_nan x); split; congruence.
Qed.

Lemma SFcompare_some x y :
  x <> S754_nan -> y <> S754_nan -> exists c, SFcompare x y = Some c.
Proof.
  destruct x, y; simpl; try congruence; eauto.
Qed.

(** Two numbers are always comparable: if [a < b] fails, [b <= a]. *)
Lemma not_ltb_leb a b :
  is_nan a = false -> is_nan b = false -> (a <? b) = false ->
  (b <=? a) = true.
Proof.
  rewrite !is_nan_false, ltb_spec, leb_spec. unfold SFltb, SFleb.
  intros Ha Hb. rewrite (SFcompare_antisym (Prim2SF a) (Prim2SF b)).
  destruct (SFcompare_some _ _ Ha Hb) as [c ->].
  destruct c; simpl; congruence.
Qed.

Lemma ltb_leb a b : (a <? b) = true -> (a <=? b) = true.
Proof.
  rewrite ltb_spec, leb_spec. unfold SFltb, SFleb.
  destruct (SFcompare _ _) as [[]|]; congruence.
Qed.

Lemma leb_not_nan a b :
  (a <=? b) = true -> is_nan a = false /\ is_nan b = false.
Proof.
  rewrite leb_spec, !is_nan_false. unfold SFleb.
  destruct (Prim2SF a), (Prim2SF b); simpl; try congruence;
    split; congruence.
Qed.

Lemma ltb_not_nan a b :
  (a <? b) = true -> is_nan a = false /\ is_nan b = false.
Proof. intros H. apply leb_not_nan, ltb_leb, H. Qed.

Lemma leb_refl a : is_nan a = false -> (a <=? a) = true.
Proof.
  rewrite is_nan_false, leb_spec. unfold SFleb. intros H.
  now rewrite SFcompare_refl.
Qed.

Lemma ltb_not_gtb a b : (a <? b) = true -> (b <=? a) = false.
Proof.
  rewrite ltb_spec, leb_spec. unfold SFltb, SFleb.
  rewrite (SFcompare_antisym (Prim2SF a) (Prim2SF b)).
  destruct (SFcompare _ _) as [[]|]; simpl; congruence.
Qed.

(** [Math.min] of two numbers is one of them and below both. *)
Lemma Math_min_spec a b :
  is_nan a = false -> is_nan b = false ->
  (Math_min a b = a \/ Math_min a b = b)
  /\ (Math_min a b <=? a) = true /\ (Math_min a b <=? b) = true.
Proof.
  intros Ha Hb. unfold Math_min. rewrite Ha, Hb. simpl.
  destruct (a <? b) eqn:Hab.
  { repeat split; auto using leb_refl, ltb_leb. }
  destruct (b <? a) eqn:Hba.
  { repeat split; auto using leb_refl, ltb_leb. }
  destruct (is_neg_zero a);
    repeat split; auto using leb_refl, not_ltb_leb.
Qed.

(** [Math.max] of two numbers is one of them and above both. *)
Lemma Math_max_spec a b :
  is_nan a = false -> is_nan b = false ->
  (Math_max a b = a \/ Math_max a b = b)
  /\ (a <=? Math_max a b) = true /\ (b <=? Math_max a b) = true.
Proof.
  intros Ha Hb. unfold Math_max. rewrite Ha, Hb. simpl.
  destruct (a <? b) eqn:Hab.
  { repeat split; auto using leb_refl, ltb_leb. }
  destruct (b <? a) eqn:Hba.
  { repeat split; auto using leb_refl, ltb_leb. }
  destruct (is_neg_zero a);
    repeat split; auto using leb_refl, not_ltb_leb.
Qed.

Lemma Math_min_nan_l a b : is_nan a = true -> Math_min a b = nan.
Proof. intros H. unfold Math_min. now rewrite H. Qed.

Lemma Math_min_nan_r a b : is_nan b = true -> Math_min a b = nan.
Proof. intros H. unfold Math_min. rewrite H. now rewrite orb_true_r. Qed.

Lemma Math_max_nan_l a b : is_nan a = true -> Math_max a b = nan.
Proof. intros H. unfold Math_max. now rewrite H. Qed.

Lemma Math_max_nan_r a b : is_nan b = true -> Math_max a b = nan.
Proof. intros H. unfold Math_max. rewrite H. now rewrite orb_true_r. Qed.

(** [Math.max(lo, Math.min(v, hi))] with [lo <= hi]: NaN when [v] is,
    and within the bounds otherwise. *)
Lemma clamp_bounds v lo hi :
  (lo <=? hi) = true ->
  let r := Math_max lo (Math_min v hi) in
  (is_nan v = true /\ is_nan r = true)
  \/ (is_nan v = false /\ (lo <=? r) = true /\ (r <=? hi) = true).
Proof.
  intros Hlh r. destruct (leb_not_nan _ _ Hlh) as [Hlo Hhi].
  destruct (is_nan v) eqn:Hv.
  - left. split; [reflexivity|]. subst r.
    rewrite Math_min_nan_l by assumption.
    rewrite Math_max_nan_r; reflexivity.
  - right. split; [reflexivity|].
    destruct (Math_min_spec _ _ Hv Hhi) as ([Hm|Hm] & Hm1 & Hm2).
    + assert (Hmn : is_nan (Math_min v hi) = false) by now rewrite Hm.
      destruct (Math_max_spec _ _ Hlo Hmn) as ([Hr|Hr] & Hr1 & Hr2);
        subst r; split; auto; rewrite Hr; auto.
    + assert (Hmn : is_nan (Math_min v hi) = false) by now rewrite Hm.
      destruct (Math_max_spec _ _ Hlo Hmn) as ([Hr|Hr] & Hr1 & Hr2);
        subst r; split; auto; rewrite Hr; auto.
Qed.

End FloatOrder.

(* ================================================================= *)
(** ** Rounding of a product to binary64 *)

Module Rounding.

Import Binary64.
Open Scope Z_scope.

Lemma digits2_size p : digits2_pos p = Pos.size p.
Proof. induction p; simpl; congruence. Qed.

Lemma digits2_bounds p :
  2 ^ (Zpos (digits2_pos p) - 1) <= Zpos p < 2 ^ Zpos (digits2_pos p).
Proof.
  rewrite digits2_size. split.
  - pose proof (Pos.size_le p) as H.
    apply Pos2Z.pos_le_pos in H. rewrite Pos2Z.inj_pow in H.
    replace (Zpos (Pos.size p)) with (Zpos (Pos.size p) - 1 + 1) in H
      by lia.
    rewrite Z.pow_add_r in H by lia.
    change (2 ^ 1) with 2 in H. change (Zpos p~0) with (2 * Zpos p) in H.
    lia.
  - pose proof (Pos.size_gt p) as H.
    apply Pos2Z.pos_lt_pos in H. now rewrite Pos2Z.inj_pow in H.
Qed.

Lemma Zdigits2_bounds m :
  0 < m -> 2 ^ (Zdigits2 m - 1) <= m < 2 ^ Zdigits2 m.
Proof.
  destruct m as [|p|p]; try lia. intros _. apply digits2_bounds.
Qed.

Lemma Zdigits2_le m k : 0 <= k -> 0 <= m < 2 ^ k -> Zdigits2 m <= k.
Proof.
  intros Hk [H0 H]. destruct m as [|p|p]; simpl; try lia.
  pose proof (digits2_bounds p) as [Hlo _].
  destruct (Z_le_gt_dec (Zpos (digits2_pos p)) k) as [|Hgt]; [assumption|].
  assert (2 ^ k <= 2 ^ (Zpos (digits2_pos p) - 1))
    by (apply Z.pow_le_mono_r; lia).
  lia.
Qed.

Lemma shr_1_m mrs : 0 <= shr_m mrs -> shr_m (shr_1 mrs) = shr_m mrs / 2.
Proof.
  destruct mrs as [m r s]. simpl. intros H.
  rewrite <- Z.div2_div.
  destruct m as [|[p|p|]|p]; try reflexivity; lia.
Qed.

Lemma iter_shr_m p : forall mrs,
  0 <= shr_m mrs ->
  shr_m (iter_pos shr_1 p mrs) = shr_m mrs / 2 ^ Zpos p.
Proof.
  assert (Hpos : forall q, 0 < 2 ^ Zpos q)
    by (intros; apply Z.pow_pos_nonneg; lia).
  induction p as [p IH|p IH|]; intros mrs H; simpl iter_pos.
  - assert (H1 : 0 <= shr_m (shr_1 mrs))
      by (rewrite shr_1_m by assumption; apply Z.div_pos; lia).
    assert (H2 : 0 <= shr_m (iter_pos shr_1 p (shr_1 mrs)))
      by (rewrite IH by assumption; apply Z.div_pos; auto).
    rewrite IH, IH, shr_1_m by assumption.
    rewrite !Z.div_div by (try apply Z.neq_sym; try apply Z.lt_neq; auto; lia).
    f_equal. replace (Zpos p~1) with (1 + Zpos p + Zpos p) by lia.
    rewrite !Z.pow_add_r by lia. change (2 ^ 1) with 2. ring.
  - assert (H2 : 0 <= shr_m (iter_pos shr_1 p mrs))
      by (rewrite IH by assumption; apply Z.div_pos; auto).
    rewrite IH, IH by assumption.
    rewrite !Z.div_div by (try apply Z.neq_sym; try apply Z.lt_neq; auto; lia).
    f_equal. replace (Zpos p~0) with (Zpos p + Zpos p) by lia.
    rewrite !Z.pow_add_r by lia. ring.
  - rewrite shr_1_m by assumption. reflexivity.
Qed.

Lemma shr_spec mrs e n :
  0 <= shr_m mrs ->
  shr_m (fst (shr mrs e n)) = shr_m mrs / 2 ^ Z.max n 0
  /\ snd (shr mrs e n) = e + Z.max n 0.
Proof.
  intros H. destruct n as [|p|p]; simpl.
  - rewrite Z.div_1_r. split; [reflexivity | lia].
  - rewrite iter_shr_m by assumption. split; reflexivity.
  - rewrite Z.div_1_r. split; [reflexivity | lia].
Qed.

Lemma round_nearest_even_bounds mrs :
  shr_m mrs
  <= round_nearest_even (shr_m mrs) (loc_of_shr_record mrs)
  <= shr_m mrs + 1.
Proof.
  destruct mrs as [m [|] [|]]; simpl; try lia.
  destruct (Z.even m); lia.
Qed.

Lemma fexp_fexp64 e : fexp prec emax e = fexp64 e.
Proof. reflexivity. Qed.

(** Rounding an exact positive [M * 2^E]: shift right to the target
    exponent, round to nearest even, and shift once more should the
    rounding have carried. *)
Lemma binary_round_aux_exact M E :
  0 < M ->
  exists m1 e1 mr,
    let n := fexp64 (Zdigits2 M + E) - E in
    m1 = M / 2 ^ Z.max n 0 /\ e1 = E + Z.max n 0
    /\ m1 <= mr <= m1 + 1 /\ (n <= 0 -> mr = M)
    /\ let n2 := fexp64 (Zdigits2 mr + e1) - e1 in
       binary_round_aux prec emax false M E loc_Exact
       = pack (mr / 2 ^ Z.max n2 0) (e1 + Z.max n2 0).
Proof.
  intros HM. unfold binary_round_aux, shr_fexp.
  change (fexp prec emax) with fexp64.
  set (n := fexp64 (Zdigits2 M + E) - E).
  set (r0 := shr_record_of_loc M loc_Exact).
  assert (H0 : 0 <= shr_m r0) by (simpl; lia).
  destruct (shr_spec r0 E n H0) as [Hm1 He1].
  destruct (shr r0 E n) as [mrs' e'] eqn:Hshr. simpl in Hm1, He1.
  set (mr := round_nearest_even (shr_m mrs') (loc_of_shr_record mrs')).
  set (n2 := fexp64 (Zdigits2 mr + e') - e').
  set (r1 := shr_record_of_loc mr loc_Exact).
  pose proof (round_nearest_even_bounds mrs') as Hr. fold mr in Hr.
  assert (Hm1' : 0 <= shr_m mrs').
  { rewrite Hm1. apply Z.div_pos; [simpl; lia|].
    apply Z.pow_pos_nonneg; lia. }
  assert (H1 : 0 <= shr_m r1) by (simpl; lia).
  destruct (shr_spec r1 e' n2 H1) as [Hm2 He2].
  destruct (shr r1 e' n2) as [mrs'' e''] eqn:Hshr2. simpl in Hm2, He2.
  exists (shr_m mrs'), e', mr. cbv zeta.
  split; [exact Hm1|]. split; [exact He1|]. split; [exact Hr|].
  split.
  - intros Hn. unfold shr in Hshr.
    destruct n as [|p|p]; try lia; inversion Hshr; subst mrs' e';
      reflexivity.
  - subst e'. fold n2. rewrite Hm2, He2. unfold pack.
    destruct (mr / 2 ^ Z.max n2 0); reflexivity.
Qed.

(** The order of two positive finite values. *)
Lemma SFleb_finite p e q f :
  SFleb (S754_finite false p e) (S754_finite false q f) = true
  <-> e < f \/ (e = f /\ Zpos p <= Zpos q).
Proof.
  unfold SFleb. simpl.
  change (PosDef.Pos.compare_cont Eq p q) with (Pos.compare p q).
  destruct (Z.compare_spec e f) as [Heq|Hlt|Hgt].
  - destruct (Pos.compare_spec p q) as [Hpq|Hpq|Hpq]; split; intros H;
      try discriminate; try reflexivity; try lia.
  - split; [intros _; left; assumption | reflexivity].
  - split; [discriminate | lia].
Qed.

Lemma pack_le_100 m e :
  0 <= m ->
  e < -46 \/ (e = -46 /\ m <= 7036874417766400) ->
  SFleb (S754_zero false) (pack m e) = true
  /\ SFleb (pack m e) SF100 = true.
Proof.
  intros Hm He. unfold pack. destruct m as [|p|p]; try lia.
  - split; reflexivity.
  - replace (e <=? 971) with true by (symmetry; apply Z.leb_le; lia).
    split; [reflexivity|]. apply SFleb_finite. lia.
Qed.

Lemma shift_lt M D n :
  0 <= M < 2 ^ D -> 0 <= n -> D <= n + 53 -> M / 2 ^ n < 2 ^ 53.
Proof.
  intros [H0 H] Hn HD.
  apply Z.div_lt_upper_bound; [apply Z.pow_pos_nonneg; lia|].
  rewrite <- Z.pow_add_r by lia.
  assert (2 ^ D <= 2 ^ (n + 53)) by (apply Z.pow_le_mono_r; lia).
  lia.
Qed.

(** A binary64 value in [[0, 1]] times 100 rounds to a value in
    [[0, 100]]. *)
Lemma SFmul_100_bounds m e :
  bounded prec emax m e = true ->
  SFleb (S754_finite false m e) SF1 = true ->
  SFleb (S754_zero false)
    (SFmul prec emax (S754_finite false m e) SF100) = true
  /\ SFleb (SFmul prec emax (S754_finite false m e) SF100) SF100 = true.
Proof.
  unfold bounded, canonical_mantissa. intros Hb Hle.
  apply andb_prop in Hb. destruct Hb as [Hc _].
  apply Z.eqb_eq in Hc. change (fexp prec emax) with fexp64 in Hc.
  pose proof (digits2_bounds m) as [Hdlo Hdhi].
  set (d := Zpos (digits2_pos m)) in *.
  assert (Hd : 0 < d) by (subst d; lia).
  unfold fexp64 in Hc.
  assert (He : e < -52 \/ (e = -52 /\ Zpos m <= 4503599627370496)).
  { apply SFleb_finite in Hle. exact Hle. }
  destruct He as [He|[He Hm]].
  2:{ (* the value is exactly one *)
    assert (d = 53) by lia.
    assert (Hm52 : 2 ^ 52 <= Zpos m)
      by (replace 52 with (d - 1) by lia; exact Hdlo).
    change (2 ^ 52) with 4503599627370496 in Hm52.
    assert (m = 4503599627370496%positive) by lia.
    subst m e. vm_compute. split; reflexivity. }
  assert (Hd53 : d <= 53) by lia.
  assert (Hm : Zpos m < 2 ^ 53).
  { assert (2 ^ d <= 2 ^ 53) by (apply Z.pow_le_mono_r; lia). lia. }
  change (2 ^ 53) with 9007199254740992 in Hm.
  change (SFmul prec emax (S754_finite false m e) SF100)
    with (binary_round_aux prec emax false
            (Zpos (m * 7036874417766400)) (e + -46) loc_Exact).
  set (M := Zpos (m * 7036874417766400)).
  set (E := e + -46).
  assert (HM : 0 < M) by (subst M; lia).
  destruct (binary_round_aux_exact M E HM)
    as (m1 & e1 & mr & Hm1 & He1 & Hmr & Hn0 & Hres).
  cbv zeta in Hm1, He1, Hn0, Hres. rewrite Hres. clear Hres.
  set (D := Zdigits2 M) in *.
  pose proof (Zdigits2_bounds M HM) as [HDlo HDhi]. fold D in HDlo, HDhi.
  assert (HMv : M = Zpos m * 7036874417766400) by (subst M; lia).
  assert (HMlt : M < 2 ^ 106).
  { change (2 ^ 106) with (9007199254740992 * 9007199254740992). nia. }
  assert (HD106 : D <= 106).
  { apply Zdigits2_le; lia. }
  assert (HD0 : 0 < D).
  { subst D M. unfold Zdigits2. lia. }
  set (n := fexp64 (D + E) - E) in *.
  assert (Hn : n = Z.max (D + E - 53) (-1074) - E) by reflexivity.
  assert (Hm1lt : m1 < 2 ^ 53).
  { rewrite Hm1. apply shift_lt with (D := D); lia. }
  change (2 ^ 53) with 9007199254740992 in Hm1lt.
  assert (Hm1pos : 0 <= m1).
  { rewrite Hm1. apply Z.div_pos; [lia|apply Z.pow_pos_nonneg; lia]. }
  assert (Hdr : Zdigits2 mr <= 54).
  { apply Zdigits2_le; [lia|].
    change (2 ^ 54) with 18014398509481984. lia. }
  assert (Hdr0 : 0 <= Zdigits2 mr).
  { destruct mr; unfold Zdigits2; lia. }
  set (n2 := fexp64 (Zdigits2 mr + e1) - e1).
  assert (Hn2 : n2 = Z.max (Zdigits2 mr + e1 - 53) (-1074) - e1)
    by reflexivity.
  assert (Hm2pos : 0 <= mr / 2 ^ Z.max n2 0).
  { apply Z.div_pos; [lia|apply Z.pow_pos_nonneg; lia]. }
  apply pack_le_100; [assumption|].
  destruct (Z_lt_le_dec (e1 + Z.max n2 0) (-46)) as [Hlt|Hge];
    [left; assumption|right].
  destruct (Z.eq_dec e1 (-46)) as [He46|Hne46].
  - (* the product has its exponent at that of 100 *)
    assert (HDE : D = 106 /\ E = -99 /\ n = 53) by lia.
    destruct HDE as (HD & HE & Hn53).
    assert (Hm1' : m1 < 7036874417766400).
    { rewrite Hm1, Hn53. change (Z.max 53 0) with 53.
      apply Z.div_lt_upper_bound; [reflexivity|].
      change (2 ^ 53) with 9007199254740992. lia. }
    assert (Hdr53 : Zdigits2 mr <= 53).
    { apply Zdigits2_le; [lia|].
      change (2 ^ 53) with 9007199254740992. lia. }
    assert (Hn20 : Z.max n2 0 = 0) by lia.
    rewrite Hn20, Z.div_1_r. lia.
  - (* one exponent below: only a carry of the rounding reaches it *)
    assert (Hn21 : Z.max n2 0 = 1) by lia.
    rewrite Hn21. split; [lia|].
    change (2 ^ 1) with 2.
    assert (mr / 2 <= 9007199254740992 / 2)
      by (apply Z.div_le_mono; lia).
    change (9007199254740992 / 2) with 4503599627370496 in *. lia.
Qed.

End Rounding.

(* ================================================================= *)
(** ** Slider: the stored value and the thumb position *)

Module SliderFacts.

Import JS Slider SliderExamples FloatOrder.
Open Scope float_scope.

Example drag_60 :
  calcValue percent track (JS.value 130) (Num 50) false
  = {| value := Num 60; left := 60 |}.
Proof. vm_compute. reflexivity. Qed.

Example drag_past_the_end :
  calcValue percent track (JS.value 500) (Num 50) false
  = {| value := Num 100; left := 100 |}.
Proof. vm_compute. reflexivity. Qed.

(** With a step of zero the stepped value is not a number. *)
Example step_zero :
  calcValue
    {| props.min := 0; props.max := 100; props.step := JS.value 0;
       props.stepMultiplier := undefined; props.disabled := false;
       props.readOnly := false; props.twoHandles := false;
       props.value := Num 50; props.valueLower := Undefined;
       props.valueUpper := Undefined; props.onChange := false;
       props.onRelease := false |}
    track (JS.value 130) (Num 50) false
  = {| value := Num nan; left := nan |}.
Proof. vm_compute. reflexivity. Qed.

(** C1, as stated, fails for the text input: on a slider from 0 to 100
    typing 150 stores 150, which is above [max]. *)
Lemma onChange_stores_value_above_max :
  (props.min percent <=? props.max percent) = true
  /\ state.value
       (onChange percent track (typed "150" undefined)
          (initial_state percent))
     = Num 150
  /\ (props.max percent <? 150) = true.
Proof. vm_compute. repeat split; reflexivity. Qed.

(** C1 (amended): for every Slider with [min <= max], [calcValue]
    without [useRawValue] (what the drag and the keyboard handlers
    call) returns [clamp(steppedValue + min, min, max)], which is
    within [[min, max]] unless it is NaN; with [useRawValue] (what the
    text input passes) it returns the given value as it is. *)
Theorem calcValue_clamped_unless_raw
  (p : props.t) (rect : option DOMRect)
  (clientX : nullable float) (v : val) :
  (props.min p <=? props.max p) = true ->
  (exists x,
      value (calcValue p rect clientX v false) = Num x
      /\ (is_nan x = true
          \/ ((props.min p <=? x) = true /\ (x <=? props.max p) = true)))
  /\ value (calcValue p rect clientX v true) = v.
Proof.
  intros Hmm. split; [|reflexivity].
  unfold calcValue, calcSteppedValuePercent. cbv zeta. simpl value.
  eexists. split; [reflexivity|]. unfold clamp.
  match goal with
  | |- context [Math_min ?a (props.max p)] =>
      destruct (clamp_bounds a _ _ Hmm) as [[_ H]|[_ H]]
  end; [left|right]; exact H.
Qed.

Lemma calcValue_clamped_unless_raw_witness :
  (exists x,
      value (calcValue percent track (JS.value 500) (Num 50) false) = Num x
      /\ (is_nan x = true
          \/ ((props.min percent <=? x) = true
              /\ (x <=? props.max percent) = true)))
  /\ value (calcValue percent track (JS.value 500) (Num 50) true) = Num 50.
Proof.
  apply (calcValue_clamped_unless_raw percent track (JS.value 500) (Num 50)).
  vm_compute. reflexivity.
Defined.

(** On a slider with one handle that is neither disabled nor read-only,
    a drag stores what [calcValue] returns without [useRawValue]. *)
Lemma _onDrag_stores_calcValue
  (p : props.t) (rect : option DOMRect)
  (clientX : float) (handle : nullable string) (s : state.t) :
  props.twoHandles p = false ->
  props.disabled p = false ->
  props.readOnly p = false ->
  state.value (_onDrag p rect clientX handle s)
  = value (calcValue p rect (JS.value clientX) (state.value s) false).
Proof.
  intros Ht Hd Hr. unfold _onDrag. rewrite Ht, Hd, Hr. reflexivity.
Qed.

(** So does an arrow key, from the current value moved by the step. *)
Lemma onKeyDown_stores_calcValue
  (p : props.t) (rect : option DOMRect) (toString : float -> string)
  (shift : bool) (s : state.t) :
  props.twoHandles p = false ->
  props.disabled p = false ->
  props.readOnly p = false ->
  exists delta,
    state.value
      (onKeyDown p rect toString
         {| which := Some ArrowRight; shiftKey := shift |} s)
    = value
        (calcValue p rect undefined
           (calcValueForDelta toString (state.value s) delta (props.step p))
           false).
Proof.
  intros Ht Hd Hr. unfold onKeyDown. rewrite Ht, Hd, Hr. simpl.
  eexists. reflexivity.
Qed.

Example arrow_right :
  forall toString,
    state.value
      (onKeyDown percent track toString
         {| which := Some ArrowRight; shiftKey := false |}
         (initial_state percent))
    = Num 51.
Proof. intros toString. vm_compute. reflexivity. Qed.

Example shift_arrow_left :
  forall toString,
    state.value
      (onKeyDown percent track toString
         {| which := Some ArrowLeft; shiftKey := true |}
         (initial_state percent))
    = Num 46.
Proof. intros toString. vm_compute. reflexivity. Qed.

(** *** Two handles *)

(** When the other handle holds a number that is not zero, an update
    keeps the lower value at or below the upper one. *)
Lemma setStateForHandle_lower_capped (x u : float) (l : float) s :
  state.valueUpper s = Num u -> truthy u = true -> is_nan x = false ->
  let s' :=
    setStateForHandle HandlePosition.LOWER {| value := Num x; left := l |} s
  in
  exists lo,
    state.valueLower s' = Num lo /\ state.valueUpper s' = Num u
    /\ (lo <=? u) = true.
Proof.
  intros Hu Ht Hx. unfold setStateForHandle. simpl.
  rewrite Hu. simpl. rewrite Ht. simpl. unfold gt, lt. simpl.
  assert (Hun : is_nan u = false).
  { unfold truthy in Ht. destruct (is_nan u); [discriminate|reflexivity]. }
  destruct (u <? x) eqn:Hlt; simpl.
  - exists u. repeat split. now apply leb_refl.
  - exists x. repeat split. now apply not_ltb_leb.
Qed.

Lemma setStateForHandle_upper_floored (x lo : float) (l : float) s :
  state.valueLower s = Num lo -> truthy lo = true -> is_nan x = false ->
  let s' :=
    setStateForHandle HandlePosition.UPPER {| value := Num x; left := l |} s
  in
  exists u,
    state.valueLower s' = Num lo /\ state.valueUpper s' = Num u
    /\ (lo <=? u) = true.
Proof.
  intros Hlo Ht Hx. unfold setStateForHandle. simpl.
  rewrite Hlo. simpl. rewrite Ht. simpl. unfold lt. simpl.
  assert (Hln : is_nan lo = false).
  { unfold truthy in Ht. destruct (is_nan lo); [discriminate|reflexivity]. }
  destruct (x <? lo) eqn:Hlt; simpl.
  - exists lo. repeat split. now apply leb_refl.
  - exists x. repeat split. now apply not_ltb_leb.
Qed.

(** C8: with both handles at 0, dragging the lower handle to the
    middle of the track stores 50 as the lower value while the upper
    value stays 0: an upper value of 0 is falsy, so the guard of
    [setStateForHandle] is skipped. *)
Theorem setStateForHandle_skips_guard_at_zero :
  state.valueLower
    (_onDrag range_at_zero track 110 (JS.value HandlePosition.LOWER)
       (initial_state range_at_zero))
  = Num 50
  /\ state.valueUpper
       (_onDrag range_at_zero track 110 (JS.value HandlePosition.LOWER)
          (initial_state range_at_zero))
     = Num 0
  /\ (0 <? 50) = true.
Proof. vm_compute. repeat split; reflexivity. Qed.

(** *** The text input *)

Lemma onChange_disabled_ignores_text :
  is_nan (parseFloat "abc") = true
  /\ state.value
       (onChange disabled_percent track (typed "abc" undefined)
          (initial_state disabled_percent))
     = Num 50.
Proof. vm_compute. split; reflexivity. Qed.

(** C9 (amended): for every Slider that is neither disabled nor
    read-only, when the text of the input does not parse as a number
    [onChange] stores the text itself in the field of the handle the
    input belongs to ([valueLower], [valueUpper], or [value]) and
    changes nothing else: no position is computed, and the stored text
    is neither clamped nor stepped. *)
Theorem onChange_stores_text
  (p : props.t) (rect : option DOMRect)
  (text : string) (handle : nullable string) (s : state.t) :
  props.disabled p = false ->
  props.readOnly p = false ->
  is_nan (parseFloat text) = true ->
  onChange p rect (typed text handle) s
  = if props.twoHandles p
       && String.eqb (nullish handle HandlePosition.LOWER)
            HandlePosition.LOWER
    then state.set_valueLower (Str text) s
    else if props.twoHandles p
            && String.eqb (nullish handle HandlePosition.LOWER)
                 HandlePosition.UPPER
    then state.set_valueUpper (Str text) s
    else state.set_value (Str text) s.
Proof.
  intros Hd Hr Hn. unfold onChange, typed.
  rewrite Hd, Hr. simpl orb. cbv iota. simpl target_value.
  cbv iota. cbv zeta. rewrite Hn. reflexivity.
Qed.

Lemma onChange_stores_text_witness :
  onChange percent track (typed "abc" undefined) (initial_state percent)
  = state.set_value (Str "abc") (initial_state percent).
Proof.
  apply (onChange_stores_text percent track "abc" undefined
           (initial_state percent));
    vm_compute; reflexivity.
Defined.

(** *** The thumb position *)

(** A fraction in [[0, 1]] times 100 is a percentage in [[0, 100]]. *)
Lemma percentage_bounds (x : float) :
  (0 <=? x) = true -> (x <=? 1) = true ->
  (0 <=? x * 100) = true /\ (x * 100 <=? 100) = true.
Proof.
  rewrite !leb_spec, mul_spec.
  change (Prim2SF 0) with (S754_zero false).
  change (Prim2SF 1) with Binary64.SF1.
  change (Prim2SF 100) with Binary64.SF100.
  pose proof (Prim2SF_valid x) as Hv.
  destruct (Prim2SF x) as [sx|sx| |sx m e]; intros H0 H1.
  - destruct sx; split; reflexivity.
  - destruct sx; [discriminate H0 | discriminate H1].
  - discriminate H0.
  - destruct sx; [discriminate H0|].
    apply Rounding.SFmul_100_bounds; assumption.
Qed.

(** [Math.min(1, Math.max(0, leftPercent)) * 100] is NaN when
    [leftPercent] is, and a percentage otherwise. *)
Lemma raw_left_bounds (leftPercent : float) :
  let left := Math_min 1 (Math_max 0 leftPercent) * 100 in
  (is_nan leftPercent = true /\ is_nan left = true)
  \/ (is_nan leftPercent = false
      /\ (0 <=? left) = true /\ (left <=? 100) = true).
Proof.
  intros left. subst left. destruct (is_nan leftPercent) eqn:Hn.
  - left. split; [reflexivity|].
    rewrite Math_max_nan_r by assumption.
    rewrite Math_min_nan_r by reflexivity. reflexivity.
  - right. split; [reflexivity|].
    assert (H0 : is_nan 0 = false) by reflexivity.
    assert (H1 : is_nan 1 = false) by reflexivity.
    destruct (Math_max_spec 0 leftPercent H0 Hn) as (_ & Ha0 & _).
    destruct (leb_not_nan _ _ Ha0) as [_ Han].
    destruct (Math_min_spec 1 _ H1 Han) as ([Hx|Hx] & Hx1 & _).
    + rewrite Hx. vm_compute. split; reflexivity.
    + apply percentage_bounds; [|assumption]. rewrite Hx. assumption.
Qed.




Example above_left :
  state.left
    (snd (componentDidUpdate above track percent
            (initial_state percent) (initial_state percent)))
  = 100.
Proof. vm_compute. reflexivity. Qed.

End SliderFacts.

(* ================================================================= *)
(** ** FilterableMultiSelect: the menu and the pinned items *)

Module MenuFacts.

Import JS FilterableMultiSelect MenuExamples Tactics.
#[local] Open Scope string_scope.

(** C3: [handleOnMenuChange(forceIsOpen)] sets the open state to
    [forceIsOpen] when that is neither [null] nor [undefined] and to
    the negation of the current [isOpen] otherwise, and [onMenuChange],
    when given, is called exactly once, with that new state. *)
Theorem handleOnMenuChange_next_state
  (Item : Type) (p : Props Item) (s : State Item)
  (forceIsOpen : nullable bool) :
  isOpen (commit_updates s (handleOnMenuChange p s forceIsOpen))
  = match forceIsOpen with
    | value b => b
    | null | undefined => negb (isOpen s)
    end
  /\ onMenuChange_calls (handleOnMenuChange p s forceIsOpen)
     = if onMenuChange p
       then [match forceIsOpen with
             | value b => b
             | null | undefined => negb (isOpen s)
             end]
       else [].
Proof.
  unfold handleOnMenuChange, commit_updates, onMenuChange_calls.
  destruct forceIsOpen as [| |b], (onMenuChange p), (isOpen s);
    simpl; split; reflexivity.
Qed.

(** C4: after a state change of type [keyDownEscape] the menu is
    closed and the highlighted index is 0. *)
Theorem keyDownEscape_closes_and_resets
  (Item : Type) (Item_eqb : Item -> Item -> bool)
  (p : Props Item) (s : State Item) (changes : Changes Item) :
  type changes = keyDownEscape ->
  isOpen (commit_updates s (handleOnStateChange Item_eqb p s changes))
  = false
  /\ highlightedIndex
       (commit_updates s (handleOnStateChange Item_eqb p s changes))
     = 0%Z.
Proof.
  intros Ht. unfold handleOnStateChange. rewrite Ht.
  unfold handleOnMenuChange, commit_updates.
  destruct (onMenuChange p), (isOpen s); simpl; split; reflexivity.
Qed.

Lemma keyDownEscape_closes_and_resets_witness :
  isOpen
    (commit_updates opened
       (handleOnStateChange String.eqb fruits opened escape))
  = false
  /\ highlightedIndex
       (commit_updates opened
          (handleOnStateChange String.eqb fruits opened escape))
     = 0%Z.
Proof.
  apply (keyDownEscape_closes_and_resets string String.eqb fruits opened
           escape).
  reflexivity.
Defined.

(** *** The items pinned to the top *)

Section TopItems.

Variable Item : Type.
Variable Item_eqb : Item -> Item -> bool.
Hypothesis Item_eqb_eq : forall x y, Item_eqb x y = true -> x = y.
Variable p : Props Item.

Lemma list_eqb_eq a : forall b, list_eqb Item_eqb a b = true -> a = b.
Proof.
  induction a as [|x a IH]; intros [|y b] H; simpl in H;
    try discriminate; [reflexivity|].
  apply andb_prop in H. destruct H as [Hxy Hab].
  f_equal; [apply Item_eqb_eq | apply IH]; assumption.
Qed.

Lemma commit_updates_topItems es : forall s : State Item,
  forallb keeps_topItems es = true ->
  topItems (commit_updates s es) = topItems s.
Proof.
  unfold commit_updates.
  induction es as [|e es IH]; intros s H; simpl in *; [reflexivity|].
  apply andb_prop in H. destruct H as [He Hes].
  rewrite IH by assumption. destruct e; try discriminate; reflexivity.
Qed.

(** No handler sets [topItems]. *)
Lemma handle_keeps ti s ev :
  forallb keeps_topItems (handle Item_eqb p ti s ev) = true.
Proof.
  unfold handle, handleOnChange, handleOnStateChange,
    handleOnInputValueChange, handleOnOuterClick, button_onClick,
    input_onClick, input_onKeyDown, input_onFocus, input_onBlur,
    clearInputValue, handleOnMenuChange.
  destruct ev as [l|c|v t| | | |k| | |esc|evt].
  - split_conditions; reflexivity.
  - destruct (type c); simpl; split_conditions; reflexivity.
  - split_conditions; reflexivity.
  - split_conditions; reflexivity.
  - destruct ti; split_conditions; reflexivity.
  - split_conditions; reflexivity.
  - destruct k, ti; simpl; split_conditions; reflexivity.
  - reflexivity.
  - reflexivity.
  - destruct ti; split_conditions; reflexivity.
  - unfold handleFocus. destruct evt as [[[|] focus]|]; reflexivity.
Qed.

Lemma handlers_keep ti s evs :
  forallb keeps_topItems (flat_map (handle Item_eqb p ti s) evs) = true.
Proof.
  induction evs as [|ev evs IH]; simpl; [reflexivity|].
  now rewrite forallb_app, handle_keeps, IH.
Qed.

Lemma sync_open_topItems open (s : State Item) :
  topItems (sync_open open s) = topItems s.
Proof.
  unfold sync_open. destruct (Bool.eqb (prevOpen s) open); reflexivity.
Qed.

Lemma commit_recorded i : recorded i -> recorded (commit Item_eqb i).
Proof.
  unfold recorded, commit. intros H.
  destruct (deps i) as [[items open]|] eqn:Hd.
  - destruct (negb _); simpl; [|rewrite Hd; exact H].
    unfold topItems_effect. destruct (isOpen (state i)); simpl;
      [exact I | reflexivity].
  - simpl. unfold topItems_effect.
    destruct (isOpen (state i)); simpl; [exact I | reflexivity].
Qed.

Lemma topItems_effect_ran (s : State Item) :
  let s' := commit_updates s (topItems_effect s) in
  isOpen s' = isOpen s
  /\ currentSelectedItems s' = currentSelectedItems s
  /\ topItems s'
     = if isOpen s then topItems s else currentSelectedItems s.
Proof.
  unfold topItems_effect. destruct (isOpen s) eqn:Ho; simpl;
    rewrite ?Ho; repeat split; reflexivity.
Qed.

(** Once the effect has run a closed menu has the current selection
    as its [topItems]. *)
Lemma commit_closed i :
  recorded i ->
  isOpen (state (commit Item_eqb i)) = false ->
  topItems (state (commit Item_eqb i))
  = currentSelectedItems (state (commit Item_eqb i)).
Proof.
  unfold recorded, commit. intros H.
  pose proof (topItems_effect_ran (state i)) as (Ho & Hc & Ht).
  destruct (deps i) as [[items open]|] eqn:Hd.
  - destruct (list_eqb Item_eqb items (currentSelectedItems (state i))
              && Bool.eqb open (isOpen (state i))) eqn:He; simpl.
    + intros Hclosed. apply andb_prop in He. destruct He as [Hl Hb].
      apply list_eqb_eq in Hl. apply Bool.eqb_prop in Hb.
      subst open items. rewrite Hclosed in H. exact H.
    + rewrite Ho, Hc, Ht. intros ->. reflexivity.
  - simpl. rewrite Ho, Hc, Ht. intros ->. reflexivity.
Qed.

(** While the menu is open the effect leaves [topItems] alone. *)
Lemma commit_open i :
  isOpen (state (commit Item_eqb i)) = true ->
  topItems (state (commit Item_eqb i)) = topItems (state i).
Proof.
  unfold commit.
  pose proof (topItems_effect_ran (state i)) as (Ho & Hc & Ht).
  destruct (deps i) as [[items open]|];
    try destruct (negb _); simpl; try reflexivity;
    rewrite Ho, Ht; intros ->; reflexivity.
Qed.

Lemma step_rendered i u :
  step Item_eqb p i u = commit Item_eqb (rendered Item_eqb p i u).
Proof. reflexivity. Qed.

Lemma rendered_topItems i u :
  topItems (state (rendered Item_eqb p i u)) = topItems (state i).
Proof.
  unfold rendered. simpl.
  now rewrite sync_open_topItems, commit_updates_topItems
    by apply handlers_keep.
Qed.

Lemma rendered_recorded i u : recorded i -> recorded (rendered Item_eqb p i u).
Proof.
  unfold recorded. rewrite rendered_topItems. simpl. tauto.
Qed.

Lemma step_recorded i u :
  recorded i -> recorded (step Item_eqb p i u).
Proof.
  intros H. rewrite step_rendered.
  apply commit_recorded, rendered_recorded, H.
Qed.

Lemma mount_recorded open : recorded (mount Item_eqb p open).
Proof. unfold mount. apply commit_recorded. exact I. Qed.

Lemma run_recorded us : forall i,
  recorded i -> recorded (run Item_eqb p i us).
Proof.
  unfold run. induction us as [|u us IH]; intros i H; simpl;
    [exact H|]. apply IH, step_recorded, H.
Qed.

Lemma mount_closed open :
  isOpen (state (mount Item_eqb p open)) = false ->
  topItems (state (mount Item_eqb p open))
  = currentSelectedItems (state (mount Item_eqb p open)).
Proof. unfold mount. apply commit_closed. exact I. Qed.

Lemma step_closed i u :
  recorded i ->
  isOpen (state (step Item_eqb p i u)) = false ->
  topItems (state (step Item_eqb p i u))
  = currentSelectedItems (state (step Item_eqb p i u)).
Proof.
  intros H. rewrite step_rendered.
  apply commit_closed, rendered_recorded, H.
Qed.

Lemma step_open i u :
  isOpen (state (step Item_eqb p i u)) = true ->
  topItems (state (step Item_eqb p i u)) = topItems (state i).
Proof.
  rewrite step_rendered. intros H.
  now rewrite commit_open, rendered_topItems.
Qed.

(** Whenever the menu is closed, [topItems] is the selection. *)
Lemma run_closed open us :
  let i := run Item_eqb p (mount Item_eqb p open) us in
  isOpen (state i) = false ->
  topItems (state i) = currentSelectedItems (state i).
Proof.
  destruct us as [|u us _] using rev_ind; simpl.
  - apply mount_closed.
  - unfold run. rewrite fold_left_app. simpl.
    apply step_closed. apply run_recorded, mount_recorded.
Qed.

Lemma run_stays_open us : forall i,
  stays_open Item_eqb p i us ->
  topItems (state (run Item_eqb p i us)) = topItems (state i).
Proof.
  unfold run. induction us as [|u us IH]; intros i H; simpl;
    [reflexivity|].
  destruct H as [Ho Hs]. rewrite IH by assumption.
  apply step_open, Ho.
Qed.

End TopItems.


Example selected_while_open :
  let now :=
    state (run String.eqb fruits (mount String.eqb fruits false)
             open_and_select) in
  isOpen now = true
  /\ currentSelectedItems now = ["banana"; "cherry"]%string
  /\ topItems now = ["banana"]%string
  /\ menu fruits now (currentSelectedItems now)
     = Some ["banana"; "apple"; "cherry"]%string.
Proof. vm_compute. repeat split; reflexivity. Qed.

(** Once the menu is closed and opened again "cherry" is at the top
    as well. *)
Example reopened :
  let now :=
    state (run String.eqb fruits (mount String.eqb fruits false)
             (open_and_select
              ++ [ {| events := [Downshift_onOuterClick];
                      open := false;
                      textInput := Some "" |};
                   {| events := [click_input];
                      open := false;
                      textInput := Some "" |} ])%list) in
  isOpen now = true
  /\ topItems now = ["banana"; "cherry"]%string
  /\ menu fruits now (currentSelectedItems now)
     = Some ["banana"; "cherry"; "apple"]%string.
Proof. vm_compute. repeat split; reflexivity. Qed.


End MenuFacts.

(* ================================================================= *)
(** ** ModalFooter: the validator of [secondaryButtons] *)

Module ModalFooterFacts.

Import JS ModalFooter.
#[local] Open Scope string_scope.

(** C5: the validator returns an [Error] exactly when the prop is
    truthy and is not an array of two elements, and [null] in every
    other case. *)
Theorem secondaryButtons_validator
  (props : list (string * jsvalue)) (componentName : string) :
  snd (propTypes.secondaryButtons props "secondaryButtons" componentName)
  = if ToBoolean (get props "secondaryButtons")
       && negb (two_buttons (get props "secondaryButtons"))
    then
      Return
        (value
           {| message :=
                "secondaryButtons needs to be an array of two button config objects"
           |})
    else Return null.
Proof.
  unfold propTypes.secondaryButtons.
  destruct (get props "secondaryButtons") as [| |b|x|t|f|l|o] eqn:Hg;
    simpl; try reflexivity.
  - destruct b; reflexivity.
  - destruct (truthy x); reflexivity.
  - destruct (String.eqb t ""); reflexivity.
  - destruct l as [|a [|b [|c l]]]; simpl; try reflexivity.
Qed.

Example one_button_rejected :
  propTypes.secondaryButtons
    [("secondaryButtons",
      JArray [JObject [("buttonText", JString "Cancel")]])]
    "secondaryButtons" "ModalFooter"
  = ([],
     Return
       (value
          {| message :=
               "secondaryButtons needs to be an array of two button config objects"
          |})).
Proof. reflexivity. Qed.

Example two_buttons_accepted :
  propTypes.secondaryButtons
    [("secondaryButtons",
      JArray [JObject [("buttonText", JString "Back")];
              JObject [("buttonText", JString "Cancel")]])]
    "secondaryButtons" "ModalFooter"
  = ([ {| checked := JObject [("buttonText", JString "Back")];
          location := "secondaryButtons";
          componentName := "ModalFooter" |};
       {| checked := JObject [("buttonText", JString "Cancel")];
          location := "secondaryButtons";
          componentName := "ModalFooter" |} ],
     Return null).
Proof. reflexivity. Qed.

Example absent_accepted :
  propTypes.secondaryButtons [] "secondaryButtons" "ModalFooter"
  = ([], Return null).
Proof. reflexivity. Qed.

End ModalFooterFacts.

(* ================================================================= *)
(** ** Sketch: the styles [syncColorStyles] returns *)

Module SketchFacts.

Import SketchColors SketchExamples.
#[local] Open Scope string_scope.
#[local] Set Implicit Arguments.

Example name_with_grade :
  formatColorName "cool-gray" (Some "10") "sharedLayerStyle"
  = "color / cool gray / 10".
Proof. reflexivity. Qed.

Example name_without_grade :
  formatColorName "black" None "sharedLayerStyle" = "color / black".
Proof. reflexivity. Qed.

Section Sync.

Variables Color SharedStyle Document : Type.
Variable colors : object (object Color).
Variable formatTokenName : string -> string.
Variable syncColorStyle :
  Document -> string -> option Color -> Document * SharedStyle.

Lemma map_sync_length {A B} (f : A -> Document -> Document * B) l :
  forall document,
    List.length (snd (map_sync f l document)) = List.length l.
Proof.
  induction l as [|x l IH]; intros document; simpl; [reflexivity|].
  destruct (f x document) as [d y].
  specialize (IH d). destruct (map_sync f l d) as [d' ys].
  simpl in *. now rewrite IH.
Qed.

Lemma map_sync_app {A B} (f : A -> Document -> Document * B) l1 l2 :
  forall document,
    map_sync f (l1 ++ l2) document
    = let '(d1, ys) := map_sync f l1 document in
      let '(d2, zs) := map_sync f l2 d1 in
      (d2, (ys ++ zs)%list).
Proof.
  induction l1 as [|x l1 IH]; intros document; simpl.
  - destruct (map_sync f l2 document); reflexivity.
  - destruct (f x document) as [d y]. rewrite IH.
    destruct (map_sync f l1 d) as [d1 ys].
    destruct (map_sync f l2 d1) as [d2 zs]. reflexivity.
Qed.

Lemma map_sync_map {A B C}
  (f : B -> Document -> Document * C) (h : A -> B) l :
  forall document,
    map_sync f (map h l) document
    = map_sync (fun x => f (h x)) l document.
Proof.
  induction l as [|x l IH]; intros document; simpl; [reflexivity|].
  destruct (f (h x) document) as [d y]. now rewrite IH.
Qed.

Lemma map_sync_ext {A B} (f g : A -> Document -> Document * B) l :
  (forall x d, f x d = g x d) ->
  forall document, map_sync f l document = map_sync g l document.
Proof.
  intros H. induction l as [|x l IH]; intros document; simpl;
    [reflexivity|].
  rewrite H. destruct (g x document) as [d y]. now rewrite IH.
Qed.

(** Mapping over the grades of each swatch in turn is mapping over
    the pairs. *)
Lemma flatMap_sync_pairs swatchNames : forall document,
  flatMap_sync
    (fun swatchName =>
       map_sync
         (fun grade =>
            graded colors formatTokenName syncColorStyle (swatchName, grade))
         (keys (swatch colors swatchName)))
    swatchNames document
  = map_sync (graded colors formatTokenName syncColorStyle)
      (flat_map
         (fun swatchName =>
            map (fun grade => (swatchName, grade))
              (keys (swatch colors swatchName)))
         swatchNames)
      document.
Proof.
  induction swatchNames as [|n l IH]; intros document; simpl;
    [reflexivity|].
  rewrite map_sync_app, map_sync_map.
  destruct (map_sync _ (keys (swatch colors n)) document) as [d ys].
  now rewrite IH.
Qed.

Lemma swatches_not_separated swatchName :
  In swatchName (keys (swatches colors)) ->
  separated swatchName = false.
Proof.
  unfold keys, swatches. rewrite in_map_iff.
  intros ([k v] & <- & Hin). apply filter_In in Hin.
  destruct Hin as [_ H]. simpl in *.
  now apply negb_true_iff in H.
Qed.

Lemma pairs_not_separated :
  Forall (fun pair => separated (fst pair) = false) (pairs colors).
Proof.
  apply Forall_forall. intros [n g] Hin. unfold pairs in Hin.
  apply in_flat_map in Hin. destruct Hin as (n' & Hn & Hg).
  apply in_map_iff in Hg. destruct Hg as (g' & [= <- <-] & _).
  now apply swatches_not_separated.
Qed.

End Sync.


Example palette_styles :
  snd (syncColorStyles palette kebab sync [])
  = Some
      [("color / blue / 10", Some "#edf5ff");
       ("color / blue / 20", Some "#d0e2ff");
       ("color / cool gray / 10", Some "#f2f4f8");
       ("color / black", Some "#000000");
       ("color / white", Some "#ffffff");
       ("color / orange", Some "#ff832b");
       ("color / yellow", Some "#f1c21b")].
Proof. reflexivity. Qed.

(** Without one of the four separated swatches the function throws. *)
Example palette_without_yellow :
  snd (syncColorStyles
         [("black", [("100", "#000000")]);
          ("orange", [("40", "#ff832b")]);
          ("white", [("0", "#ffffff")])]
         kebab sync [])
  = None.
Proof. reflexivity. Qed.


End SketchFacts.

(* ================================================================= *)
(** ** ErrorBoundary: the fallback *)

Module ErrorBoundaryFacts.

Import ErrorBoundary.

Section Boundary.

Variables Node Exception : Type.
Variable fallback : Node.

(** A boundary that has caught an exception renders the fallback
    whatever its children would do, and stays that way. *)
Lemma renders_after_error (rest : list (Outcome Node Exception)) :
  forall first s,
    hasError s = true ->
    renders fallback s first rest = (fallback, s).
Proof.
  induction rest as [|next rest IH]; intros first s Hs; simpl.
  - unfold render. now rewrite Hs.
  - unfold render at 1. rewrite Hs. simpl. now apply IH.
Qed.

End Boundary.

(** C7: when a descendant throws while rendering, the boundary renders
    its fallback in place of the subtree, and it keeps rendering the
    fallback on every later render: the children are not tried
    again. *)
Theorem fallback_replaces_failed_subtree
  (Node Exception : Type) (fallback : Node) (e : Exception)
  (later : list (Outcome Node Exception)) :
  render fallback (thrown e) initial = (fallback, {| hasError := true |})
  /\ fst (renders fallback initial (thrown e) later) = fallback.
Proof.
  split; [reflexivity|].
  destruct later as [|next rest]; [reflexivity|].
  simpl. now rewrite renders_after_error.
Qed.

Example children_render_without_error :
  render "Something went wrong"%string
    (rendered (Exception := unit) "content"%string) initial
  = ("content"%string, initial).
Proof. reflexivity. Qed.

End ErrorBoundaryFacts.

(* ================================================================= *)
(** ** The order of binary64 values as an order of ranks *)

Module Order64.

Import JS Binary64 FloatOrder.
Open Scope float_scope.

Lemma SFcompare_Lt x y :
  x <> S754_nan -> y <> S754_nan ->
  SFcompare x y = Some Lt <-> before (rank x) (rank y).
Proof.
  unfold before.
  destruct x as [sx|sx| |sx mx ex], y as [sy|sy| |sy my ey];
    try destruct sx; try destruct sy; intros Hx Hy; simpl;
    try congruence;
    try (split; intros H; [try discriminate H; lia|try reflexivity; lia]).
  - change (PosDef.Pos.compare_cont Eq mx my) with (Pos.compare mx my).
    destruct (Z.compare_spec ex ey); simpl;
      destruct (Pos.compare_spec mx my); simpl;
      split; intros H'; try discriminate H'; try reflexivity; lia.
  - change (PosDef.Pos.compare_cont Eq mx my) with (Pos.compare mx my).
    destruct (Z.compare_spec ex ey); simpl;
      destruct (Pos.compare_spec mx my); simpl;
      split; intros H'; try discriminate H'; try reflexivity; lia.
Qed.

Lemma SFcompare_Eq x y :
  x <> S754_nan -> y <> S754_nan ->
  SFcompare x y = Some Eq <-> rank x = rank y.
Proof.
  destruct x as [sx|sx| |sx mx ex], y as [sy|sy| |sy my ey];
    try destruct sx; try destruct sy; intros Hx Hy; simpl;
    try congruence;
    try (split; intros H; [try discriminate H; reflexivity
                          |try reflexivity; congruence]).
  - change (PosDef.Pos.compare_cont Eq mx my) with (Pos.compare mx my).
    destruct (Z.compare_spec ex ey); simpl;
      destruct (Pos.compare_spec mx my); simpl;
      split; intros H'; try discriminate H'; try reflexivity;
      try (f_equal; f_equal; lia); injection H'; intros; lia.
  - change (PosDef.Pos.compare_cont Eq mx my) with (Pos.compare mx my).
    destruct (Z.compare_spec ex ey); simpl;
      destruct (Pos.compare_spec mx my); simpl;
      split; intros H'; try discriminate H'; try reflexivity;
      try (f_equal; f_equal; lia); injection H'; intros; lia.
Qed.

Lemma ltb_before a b :
  is_nan a = false -> is_nan b = false ->
  (a <? b) = true <-> before (rank (Prim2SF a)) (rank (Prim2SF b)).
Proof.
  rewrite !is_nan_false, ltb_spec. unfold SFltb. intros Ha Hb.
  rewrite <- (SFcompare_Lt _ _ Ha Hb).
  destruct (SFcompare _ _) as [[]|]; split; congruence.
Qed.

Lemma eqb_rank a b :
  is_nan a = false -> is_nan b = false ->
  (a =? b) = true <-> rank (Prim2SF a) = rank (Prim2SF b).
Proof.
  rewrite !is_nan_false, eqb_spec. unfold SFeqb. intros Ha Hb.
  rewrite <- (SFcompare_Eq _ _ Ha Hb).
  destruct (SFcompare _ _) as [[]|]; split; congruence.
Qed.

Lemma leb_before a b :
  is_nan a = false -> is_nan b = false ->
  (a <=? b) = true
  <-> before (rank (Prim2SF a)) (rank (Prim2SF b))
      \/ rank (Prim2SF a) = rank (Prim2SF b).
Proof.
  intros Ha Hb. rewrite <- ltb_before, <- eqb_rank by assumption.
  rewrite leb_spec, ltb_spec, eqb_spec. unfold SFleb, SFltb, SFeqb.
  destruct (SFcompare _ _) as [[]|]; split; intros H;
    try discriminate H; try tauto; destruct H; congruence.
Qed.

Lemma ltb_false_before a b :
  is_nan a = false -> is_nan b = false ->
  (a <? b) = false <-> ~ before (rank (Prim2SF a)) (rank (Prim2SF b)).
Proof.
  intros Ha Hb. rewrite <- ltb_before by assumption.
  destruct (a <? b); split; congruence.
Qed.

(** [Math.min] of two numbers, by the way they compare. *)
Lemma Math_min_cases a b :
  is_nan a = false -> is_nan b = false ->
  is_nan (Math_min a b) = false
  /\ (((a <? b) = true /\ Math_min a b = a)
      \/ ((a <? b) = false /\ (b <? a) = true /\ Math_min a b = b)
      \/ ((a <? b) = false /\ (b <? a) = false
          /\ (Math_min a b = a \/ Math_min a b = b))).
Proof.
  intros Ha Hb. unfold Math_min. rewrite Ha, Hb. simpl.
  destruct (a <? b); [tauto|].
  destruct (b <? a); [tauto|].
  destruct (is_neg_zero a); tauto.
Qed.

(** [Math.max] of two numbers, by the way they compare. *)
Lemma Math_max_cases a b :
  is_nan a = false -> is_nan b = false ->
  is_nan (Math_max a b) = false
  /\ (((a <? b) = true /\ Math_max a b = b)
      \/ ((a <? b) = false /\ (b <? a) = true /\ Math_max a b = a)
      \/ ((a <? b) = false /\ (b <? a) = false
          /\ (Math_max a b = a \/ Math_max a b = b))).
Proof.
  intros Ha Hb. unfold Math_max. rewrite Ha, Hb. simpl.
  destruct (a <? b); [tauto|].
  destruct (b <? a); [tauto|].
  destruct (is_neg_zero a); tauto.
Qed.

End Order64.

(* ================================================================= *)
(** ** Slider: further properties of the calculations and handlers *)

Module SliderMore.

Import JS Slider SliderExamples FloatOrder Order64 Tactics.
Open Scope float_scope.

(** X1: [clamp] does what its documentation says when [min <= max] and
    [val] is a number: the result equals [min] if [val < min], [max] if
    [val > max], and [val] otherwise. *)
Theorem clamp_as_documented (val min max : float) :
  (min <=? max) = true ->
  is_nan val = false ->
  (clamp val min max
   =? (if val <? min then min else if max <? val then max else val))
  = true.
Proof.
  intros Hmm Hv. destruct (leb_not_nan _ _ Hmm) as [Hmin Hmax].
  unfold clamp.
  destruct (Math_min_cases val max Hv Hmax) as [Hmn Hm].
  destruct (Math_max_cases min (Math_min val max) Hmin Hmn) as [Hrn Hr].
  set (m := Math_min val max) in *. set (r := Math_max min m) in *.
  clearbody r. clearbody m.
  apply leb_before in Hmm; try assumption.
  assert (Ht : is_nan (if val <? min then min
                       else if max <? val then max else val) = false).
  { destruct (val <? min); [assumption|].
    destruct (max <? val); assumption. }
  apply eqb_rank; try assumption. clear Ht.
  destruct Hmm as [Hmm|Hmm];
    destruct Hm as [[A B]|[(A & B & C)|(A & B & [C|C])]]; subst m;
    destruct Hr as [[D E]|[(D & E & F)|(D & E & [F|F])]]; subst r;
    destruct (val <? min) eqn:H1; try destruct (max <? val) eqn:H2;
    repeat match goal with
           | H : (_ <? _) = true |- _ =>
               apply ltb_before in H; [|assumption|assumption]
           | H : (_ <? _) = false |- _ =>
               apply ltb_false_before in H; [|assumption|assumption]
           end;
    rank_components; try reflexivity; try (exfalso; lia);
    repeat f_equal; lia.
Qed.

Lemma clamp_as_documented_witness :
  (clamp 150 0 100
   =? (if 150 <? 0 then 0 else if 100 <? 150 then 100 else 150))
  = true.
Proof.
  apply (clamp_as_documented 150 0 100); vm_compute; reflexivity.
Defined.

Lemma mul_nan_l (x y : float) : is_nan x = true -> is_nan (x * y) = true.
Proof.
  rewrite !is_nan_spec, mul_spec. intros ->. reflexivity.
Qed.

(** A fraction clamped to [[0, 1]], as a percentage. *)
Lemma clamp_percentage (x : float) :
  percentage_or_nan (clamp x 0 1 * 100).
Proof.
  unfold percentage_or_nan, clamp.
  destruct (clamp_bounds x 0 1 eq_refl) as [[_ H]|(_ & H0 & H1)].
  - left. apply mul_nan_l, H.
  - right. apply SliderFacts.percentage_bounds; assumption.
Qed.

Lemma stepped_value_bounds
  (p : props.t) (rect : option DOMRect)
  (clientX : nullable float) (v : val) :
  (props.min p <=? props.max p) = true ->
  exists x,
    value (calcValue p rect clientX v false) = Num x
    /\ (is_nan x = true
        \/ ((props.min p <=? x) = true /\ (x <=? props.max p) = true)).
Proof.
  intros Hmm. unfold calcValue, calcSteppedValuePercent. cbv zeta.
  simpl value. eexists. split; [reflexivity|]. unfold clamp.
  match goal with
  | |- context [Math_min ?a (props.max p)] =>
      destruct (clamp_bounds a _ _ Hmm) as [[_ H]|[_ H]]
  end; [left|right]; exact H.
Qed.

Lemma stores_stepped
  (p : props.t) (rect : option DOMRect)
  (clientX : nullable float) (v : val) (s : state.t) :
  (props.min p <=? props.max p) = true ->
  stepped p
    (state.set_isValid true
       (state.set_left (left (calcValue p rect clientX v false))
          (state.set_value (value (calcValue p rect clientX v false)) s))).
Proof.
  intros Hmm. unfold stepped. simpl. repeat split.
  - apply stepped_value_bounds, Hmm.
  - unfold calcValue, calcSteppedValuePercent. apply clamp_percentage.
Qed.

(** X2: the thumb position [calcValue] computes without [useRawValue]
    is a percentage in [[0, 100]], or NaN. *)
Theorem calcValue_stepped_left_bounds
  (p : props.t) (rect : option DOMRect)
  (clientX : nullable float) (v : val) :
  percentage_or_nan (left (calcValue p rect clientX v false)).
Proof.
  unfold calcValue, calcSteppedValuePercent. cbv zeta. simpl left.
  apply clamp_percentage.
Qed.

(** X3: without a truthy [clientX], a falsy value (undefined, 0, NaN or
    the empty string) or a range [max - min] that is 0 or NaN puts the
    raw thumb position at 0, whatever [min] and [max] are. *)
Theorem calcValue_raw_left_zero
  (p : props.t) (rect : option DOMRect)
  (clientX : nullable float) (v : val) :
  number_truthy clientX = None ->
  ToBoolean v = false \/ truthy (props.max p - props.min p) = false ->
  left (calcValue p rect clientX v true) = 0.
Proof.
  intros Hc Hv. unfold calcValue, calcLeftPercent. rewrite Hc.
  replace (ToBoolean v && truthy (props.max p - props.min p)) with false.
  - vm_compute. reflexivity.
  - destruct Hv as [-> | ->]; [reflexivity|].
    now rewrite andb_false_r.
Qed.

Lemma calcValue_raw_left_zero_witness :
  left (calcValue centered track undefined (Num 0) true) = 0.
Proof.
  apply (calcValue_raw_left_zero centered track undefined (Num 0)).
  - reflexivity.
  - left. vm_compute. reflexivity.
Defined.

(** X4: on a disabled or read-only slider the text input, drag, key
    and drag-stop handlers leave the state as it is. *)
Theorem disabled_handlers_keep_state
  (p : props.t) (rect : option DOMRect) (toString : float -> string)
  (change : option Event) (clientX : float) (handle : nullable string)
  (key : KeyboardEvent) (s : state.t) :
  props.disabled p || props.readOnly p = true ->
  onChange p rect change s = s
  /\ _onDrag p rect clientX handle s = s
  /\ onKeyDown p rect toString key s = s
  /\ onDragStop p s = s.
Proof.
  intros H. unfold onChange, _onDrag, onKeyDown, onDragStop.
  rewrite H. repeat split; reflexivity.
Qed.

Lemma disabled_handlers_keep_state_witness :
  onChange disabled_percent track (typed "7" undefined)
    (initial_state disabled_percent)
  = initial_state disabled_percent
  /\ _onDrag disabled_percent track 110 undefined
       (initial_state disabled_percent)
     = initial_state disabled_percent
  /\ onKeyDown disabled_percent track (fun _ => ""%string)
       {| which := Some ArrowRight; shiftKey := false |}
       (initial_state disabled_percent)
     = initial_state disabled_percent
  /\ onDragStop disabled_percent (initial_state disabled_percent)
     = initial_state disabled_percent.
Proof.
  apply (disabled_handlers_keep_state disabled_percent track
           (fun _ => ""%string) (typed "7" undefined) 110 undefined
           {| which := Some ArrowRight; shiftKey := false |}
           (initial_state disabled_percent)).
  reflexivity.
Defined.

(** X5: after a drag stops, the next [componentDidUpdate] calls
    [onRelease] once, with the current value, and the update after that
    does not call it again. *)
Theorem onRelease_fires_once
  (p prevProps prevProps' : props.t) (rect : option DOMRect)
  (prevState prevState' s : state.t) :
  props.disabled p || props.readOnly p = false ->
  props.onRelease p = true ->
  filter is_onRelease
    (fst (componentDidUpdate p rect prevProps prevState (onDragStop p s)))
  = [call_onRelease (state.value s)]
  /\ filter is_onRelease
       (fst (componentDidUpdate p rect prevProps' prevState'
               (snd (componentDidUpdate p rect prevProps prevState
                       (onDragStop p s)))))
     = [].
Proof.
  intros Hd Hr. unfold onDragStop. rewrite Hd.
  unfold componentDidUpdate. simpl state.needsOnRelease. rewrite Hr.
  simpl andb. cbv iota.
  destruct (negb (props_changed prevProps p)) eqn:Hc; simpl fst; simpl snd.
  - simpl state.needsOnRelease. simpl andb. cbv iota.
    split.
    + rewrite filter_app. simpl.
      destruct (_ && props.onChange p); reflexivity.
    + destruct (negb (props_changed prevProps' p)); simpl fst;
        rewrite filter_app; simpl;
        destruct (_ && props.onChange p); reflexivity.
  - simpl state.needsOnRelease. simpl andb. cbv iota.
    split.
    + rewrite filter_app. simpl.
      destruct (_ && props.onChange p); reflexivity.
    + destruct (negb (props_changed prevProps' p)); simpl fst;
        rewrite filter_app; simpl;
        destruct (_ && props.onChange p); reflexivity.
Qed.

Lemma onRelease_fires_once_witness :
  filter is_onRelease
    (fst (componentDidUpdate centered track centered
            (initial_state centered)
            (onDragStop centered (initial_state centered))))
  = [call_onRelease (state.value (initial_state centered))]
  /\ filter is_onRelease
       (fst (componentDidUpdate centered track centered
               (initial_state centered)
               (snd (componentDidUpdate centered track centered
                       (initial_state centered)
                       (onDragStop centered (initial_state centered))))))
     = [].
Proof.
  apply (onRelease_fires_once centered centered centered track
           (initial_state centered) (initial_state centered)
           (initial_state centered));
    reflexivity.
Defined.

Lemma raw_left_percentage (leftPercent : float) :
  percentage_or_nan (Math_min 1 (Math_max 0 leftPercent) * 100).
Proof.
  destruct (SliderFacts.raw_left_bounds leftPercent) as [[_ H]|[_ H]].
  - left. exact H.
  - right. exact H.
Qed.

(** X6: [componentDidMount] keeps the values of the state.  Without a
    mounted element it changes nothing; with one it sets the position
    of each thumb the slider has to a percentage in [[0, 100]] or NaN
    and leaves the other positions alone. *)
Theorem componentDidMount_positions
  (p : props.t) (rect : option DOMRect) (s : state.t) :
  state.value (componentDidMount p rect s) = state.value s
  /\ state.valueLower (componentDidMount p rect s) = state.valueLower s
  /\ state.valueUpper (componentDidMount p rect s) = state.valueUpper s
  /\ match rect with
     | None => componentDidMount p rect s = s
     | Some _ =>
         if props.twoHandles p then
           percentage_or_nan (state.leftLower (componentDidMount p rect s))
           /\ percentage_or_nan
                (state.leftUpper (componentDidMount p rect s))
           /\ state.left (componentDidMount p rect s) = state.left s
         else
           percentage_or_nan (state.left (componentDidMount p rect s))
           /\ state.leftLower (componentDidMount p rect s)
              = state.leftLower s
           /\ state.leftUpper (componentDidMount p rect s)
              = state.leftUpper s
     end.
Proof.
  unfold componentDidMount.
  destruct rect as [r|]; [|repeat split; reflexivity].
  destruct (props.twoHandles p); unfold calcValue; simpl;
    repeat split; try reflexivity; apply raw_left_percentage.
Qed.

(** X7: on a range slider whose lower and upper values are non-zero
    numbers, [setStateForHandle] with a number for either handle leaves
    numbers in both values, the lower one at most the upper one. *)
Theorem setStateForHandle_keeps_order
  (upper : bool) (x l lo u : float) (s : state.t) :
  state.valueLower s = Num lo -> state.valueUpper s = Num u ->
  truthy lo = true -> truthy u = true -> is_nan x = false ->
  exists lo' u',
    state.valueLower
      (setStateForHandle
         (if upper then HandlePosition.UPPER else HandlePosition.LOWER)
         {| value := Num x; left := l |} s) = Num lo'
    /\ state.valueUpper
         (setStateForHandle
            (if upper then HandlePosition.UPPER else HandlePosition.LOWER)
            {| value := Num x; left := l |} s) = Num u'
    /\ (lo' <=? u') = true.
Proof.
  intros Hlo Hu Tlo Tu Hx. destruct upper.
  - destruct (SliderFacts.setStateForHandle_upper_floored x lo l s Hlo Tlo Hx)
      as (u' & H1 & H2 & H3).
    exists lo, u'. repeat split; assumption.
  - destruct (SliderFacts.setStateForHandle_lower_capped x u l s Hu Tu Hx)
      as (lo' & H1 & H2 & H3).
    exists lo', u. repeat split; assumption.
Qed.

Lemma setStateForHandle_keeps_order_witness :
  exists lo' u',
    state.valueLower
      (setStateForHandle HandlePosition.LOWER
         {| value := Num 90; left := 90 |} range_20_80) = Num lo'
    /\ state.valueUpper
         (setStateForHandle HandlePosition.LOWER
            {| value := Num 90; left := 90 |} range_20_80) = Num u'
    /\ (lo' <=? u') = true.
Proof.
  apply (setStateForHandle_keeps_order false 90 90 20 80 range_20_80);
    reflexivity.
Defined.

Lemma strict_eq_same (v : val) : negb (strict_eq v v) = is_NaN v.
Proof.
  destruct v as [|x|t]; simpl; [reflexivity|reflexivity|].
  now rewrite String.eqb_refl.
Qed.

(** X8: an update in which the state did not change calls [onChange]
    exactly when the parent passed an [onChange] and one of the three
    values of the state is NaN: NaN differs from itself, so it counts
    as a change at every update. *)
Theorem componentDidUpdate_onChange_unchanged_state
  (p prevProps : props.t) (rect : option DOMRect) (s : state.t) :
  existsb is_onChange (fst (componentDidUpdate p rect prevProps s s))
  = props.onChange p
    && (is_NaN (state.value s) || is_NaN (state.valueLower s)
        || is_NaN (state.valueUpper s)).
Proof.
  unfold componentDidUpdate. rewrite !strict_eq_same.
  set (c := is_NaN (state.value s) || is_NaN (state.valueLower s)
            || is_NaN (state.valueUpper s)).
  destruct (state.needsOnRelease s && props.onRelease p);
    destruct (negb (props_changed prevProps p)); simpl fst;
    rewrite existsb_app; simpl; rewrite orb_false_r;
    destruct c, (props.onChange p); reflexivity.
Qed.



(** X26: on an enabled range slider whose lower and upper values are
    non-zero numbers, a number typed into the input of either handle
    is stopped at the other handle: afterwards both values are numbers
    and the lower one is at most the upper one. *)
Theorem onChange_range_keeps_order
  (p : props.t) (rect : option DOMRect) (text : string) (upper : bool)
  (lo u : float) (s : state.t) :
  props.disabled p = false ->
  props.readOnly p = false ->
  props.twoHandles p = true ->
  is_nan (parseFloat text) = false ->
  state.valueLower s = Num lo -> state.valueUpper s = Num u ->
  truthy lo = true -> truthy u = true ->
  exists lo' u',
    state.valueLower
      (onChange p rect
         (typed text
            (JS.value
               (if upper then HandlePosition.UPPER
                else HandlePosition.LOWER)))
         s) = Num lo'
    /\ state.valueUpper
         (onChange p rect
            (typed text
               (JS.value
                  (if upper then HandlePosition.UPPER
                   else HandlePosition.LOWER)))
            s) = Num u'
    /\ (lo' <=? u') = true.
Proof.
  intros Hd Hr Ht Hn Hlo Hu Tlo Tu. unfold onChange, typed.
  rewrite Hd, Hr, Ht. simpl orb. cbv iota. simpl target_value.
  cbv iota. cbv zeta. rewrite Hn. unfold calcValue.
  simpl handlePosition. destruct upper; simpl nullish.
  - destruct (SliderFacts.setStateForHandle_upper_floored
                (parseFloat text) lo
                (Math_min 1
                   (Math_max 0
                      (calcLeftPercent p rect undefined
                         (Num (parseFloat text))
                         (props.max p - props.min p))) * 100)
                s Hlo Tlo Hn)
      as (u' & H1 & H2 & H3).
    exists lo, u'. repeat split; assumption.
  - destruct (SliderFacts.setStateForHandle_lower_capped
                (parseFloat text) u
                (Math_min 1
                   (Math_max 0
                      (calcLeftPercent p rect undefined
                         (Num (parseFloat text))
                         (props.max p - props.min p))) * 100)
                s Hu Tu Hn)
      as (lo' & H1 & H2 & H3).
    exists lo', u. repeat split; assumption.
Qed.

Lemma onChange_range_keeps_order_witness :
  exists lo' u',
    state.valueLower
      (onChange range_at_zero track
         (typed "90" (JS.value HandlePosition.LOWER)) range_20_80)
    = Num lo'
    /\ state.valueUpper
         (onChange range_at_zero track
            (typed "90" (JS.value HandlePosition.LOWER)) range_20_80)
       = Num u'
    /\ (lo' <=? u') = true.
Proof.
  apply (onChange_range_keeps_order range_at_zero track "90" false 20 80
           range_20_80);
    vm_compute; reflexivity.
Defined.

Example typed_lower_stops_at_upper :
  state.valueLower
    (onChange range_at_zero track
       (typed "90" (JS.value HandlePosition.LOWER)) range_20_80)
  = Num 80.
Proof. vm_compute. reflexivity. Qed.

(** X25: [getDerivedStateFromProps] makes [isValid] the opposite of a
    boolean [invalid] prop and leaves it alone without one; called
    again on the state it derived it returns [null]. *)
Theorem getDerivedStateFromProps_syncs_isValid
  (invalid : option bool) (s : state.t) :
  state.isValid (derived invalid s)
  = match invalid with
    | Some invalid => negb invalid
    | None => state.isValid s
    end
  /\ getDerivedStateFromProps invalid (derived invalid s) = None.
Proof.
  unfold derived, getDerivedStateFromProps.
  destruct invalid as [[|]|], (state.isValid s) eqn:Hv; simpl;
    rewrite ?Hv; split; reflexivity.
Qed.

End SliderMore.

(* ================================================================= *)
(** ** More on FilterableMultiSelect *)

Module MenuMore.

Import JS FilterableMultiSelect MenuExamples Tactics.
#[local] Open Scope string_scope.

Ltac unfold_handlers :=
  unfold handle, handleOnChange, handleOnStateChange,
    handleOnInputValueChange, handleOnOuterClick, button_onClick,
    input_onClick, input_onKeyDown, input_onFocus, input_onBlur,
    clearInputValue, handleFocus, handleOnMenuChange.

Section Handlers.

Context {Item : Type}.
Variable Item_eqb : Item -> Item -> bool.
Variable p : Props Item.

Lemma commit_updates_app (s : State Item) (a b : list (Effect Item)) :
  commit_updates s (a ++ b) = commit_updates (commit_updates s a) b.
Proof. unfold commit_updates. apply fold_left_app. Qed.

Lemma handle_prevOpen ti s0 ev (s : State Item) :
  prevOpen (commit_updates s (handle Item_eqb p ti s0 ev)) = prevOpen s.
Proof.
  unfold_handlers.
  destruct ev as [l|c|v t| | | |k| | |esc|evt].
  - split_conditions; reflexivity.
  - destruct (type c); simpl; split_conditions; reflexivity.
  - split_conditions; reflexivity.
  - split_conditions; reflexivity.
  - destruct ti; split_conditions; reflexivity.
  - split_conditions; reflexivity.
  - destruct k, ti; simpl; split_conditions; reflexivity.
  - reflexivity.
  - reflexivity.
  - destruct ti; split_conditions; reflexivity.
  - destruct evt as [[[|] focus]|]; reflexivity.
Qed.

Lemma handle_topItems ti s0 ev (s : State Item) :
  topItems (commit_updates s (handle Item_eqb p ti s0 ev)) = topItems s.
Proof.
  unfold_handlers.
  destruct ev as [l|c|v t| | | |k| | |esc|evt].
  - split_conditions; reflexivity.
  - destruct (type c); simpl; split_conditions; reflexivity.
  - split_conditions; reflexivity.
  - split_conditions; reflexivity.
  - destruct ti; split_conditions; reflexivity.
  - split_conditions; reflexivity.
  - destruct k, ti; simpl; split_conditions; reflexivity.
  - reflexivity.
  - reflexivity.
  - destruct ti; split_conditions; reflexivity.
  - destruct evt as [[[|] focus]|]; reflexivity.
Qed.

Lemma handle_currentSelectedItems ti s0 ev (s : State Item) :
  currentSelectedItems (commit_updates s (handle Item_eqb p ti s0 ev))
  = match ev with
    | Selection_onChange l => l
    | _ => currentSelectedItems s
    end.
Proof.
  unfold_handlers.
  destruct ev as [l|c|v t| | | |k| | |esc|evt].
  - split_conditions; reflexivity.
  - destruct (type c); simpl; split_conditions; reflexivity.
  - split_conditions; reflexivity.
  - split_conditions; reflexivity.
  - destruct ti; split_conditions; reflexivity.
  - split_conditions; reflexivity.
  - destruct k, ti; simpl; split_conditions; reflexivity.
  - reflexivity.
  - reflexivity.
  - destruct ti; split_conditions; reflexivity.
  - destruct evt as [[[|] focus]|]; reflexivity.
Qed.

Lemma handle_onMenuChange_calls ti s ev :
  onMenuChange_calls (handle Item_eqb p ti s ev)
  = if onMenuChange p then isOpen_sets (handle Item_eqb p ti s ev)
    else [].
Proof.
  unfold_handlers. unfold onMenuChange_calls, isOpen_sets.
  destruct ev as [l|c|v t| | | |k| | |esc|evt].
  - split_conditions; reflexivity.
  - destruct (type c); simpl; split_conditions; reflexivity.
  - split_conditions; reflexivity.
  - split_conditions; reflexivity.
  - destruct ti; split_conditions; reflexivity.
  - split_conditions; reflexivity.
  - destruct k, ti; simpl; split_conditions; reflexivity.
  - destruct (onMenuChange p); reflexivity.
  - destruct (onMenuChange p); reflexivity.
  - destruct ti; split_conditions; reflexivity.
  - destruct evt as [[[|] focus]|]; destruct (onMenuChange p);
      reflexivity.
Qed.

Lemma handlers_prevOpen ti s0 evs : forall s : State Item,
  prevOpen (commit_updates s (flat_map (handle Item_eqb p ti s0) evs))
  = prevOpen s.
Proof.
  induction evs as [|ev evs IH]; intros s; simpl; [reflexivity|].
  now rewrite commit_updates_app, IH, handle_prevOpen.
Qed.

Lemma commit_isOpen (i : Instance Item) :
  isOpen (state (commit Item_eqb i)) = isOpen (state i)
  /\ prevOpen (state (commit Item_eqb i)) = prevOpen (state i)
  /\ currentSelectedItems (state (commit Item_eqb i))
     = currentSelectedItems (state i).
Proof.
  unfold commit, topItems_effect.
  destruct (match deps i with Some _ => _ | None => _ end);
    [|repeat split; reflexivity].
  destruct (isOpen (state i)) eqn:Ho; simpl; rewrite ?Ho;
    repeat split; reflexivity.
Qed.

Lemma list_eqb_refl :
  (forall x, Item_eqb x x = true) ->
  forall l, list_eqb Item_eqb l l = true.
Proof.
  intros Hr. induction l as [|x l IH]; simpl; [reflexivity|].
  now rewrite Hr, IH.
Qed.

End Handlers.

Lemma last_cons (A : Type) (l : list A) : forall x d : A,
  last (x :: l) d = last l x.
Proof.
  induction l as [|y l IH]; intros x d; [reflexivity|].
  change (last (x :: y :: l) d) with (last (y :: l) d).
  rewrite IH. symmetry. apply IH.
Qed.

(** X9: after Downshift reports a typed input value (a change of type
    [changeInput]) the input holds that value and the menu is open
    exactly when the value is not empty, whatever it was before. *)
Theorem changeInput_opens_unless_empty
  (Item : Type) (p : Props Item) (s : State Item) (v : string) :
  isOpen (commit_updates s (handleOnInputValueChange p s v changeInput))
  = negb (String.eqb v "")
  /\ inputValue
       (commit_updates s (handleOnInputValueChange p s v changeInput))
     = v.
Proof.
  unfold handleOnInputValueChange, handleOnMenuChange, commit_updates.
  destruct (onInputValueChange p), (String.eqb v ""), (isOpen s) eqn:Ho,
    (onMenuChange p); simpl; rewrite ?Ho; split; reflexivity.
Qed.

(** X10: the handlers of an update call [onMenuChange], when the parent
    gave one, once for each [setIsOpen] they make, with the same values
    in the same order; without it they make no call. *)
Theorem onMenuChange_follows_setIsOpen
  (Item : Type) (Item_eqb : Item -> Item -> bool) (p : Props Item)
  (ti : option string) (s : State Item) (evs : list (Event Item)) :
  onMenuChange_calls (flat_map (handle Item_eqb p ti s) evs)
  = if onMenuChange p
    then isOpen_sets (flat_map (handle Item_eqb p ti s) evs)
    else [].
Proof.
  induction evs as [|ev evs IH]; simpl.
  - destruct (onMenuChange p); reflexivity.
  - unfold onMenuChange_calls, isOpen_sets in *.
    rewrite !flat_map_app, IH.
    pose proof (handle_onMenuChange_calls Item_eqb p ti s ev) as H.
    unfold onMenuChange_calls, isOpen_sets in H. rewrite H.
    destruct (onMenuChange p); reflexivity.
Qed.

(** X11: the arrow-down key on a closed menu opens it and highlights
    the first item, whatever index Downshift reports with the key. *)
Theorem arrowDown_opens_closed_menu
  (Item : Type) (Item_eqb : Item -> Item -> bool)
  (p : Props Item) (s : State Item) (changes : Changes Item) :
  type changes = keyDownArrowDown -> isOpen s = false ->
  isOpen (commit_updates s (handleOnStateChange Item_eqb p s changes))
  = true
  /\ highlightedIndex
       (commit_updates s (handleOnStateChange Item_eqb p s changes))
     = 0%Z.
Proof.
  intros Ht Ho. unfold handleOnStateChange. rewrite Ht.
  unfold handleOnMenuChange, commit_updates. rewrite Ho.
  destruct (onMenuChange p); simpl; split; reflexivity.
Qed.

Lemma arrowDown_opens_closed_menu_witness :
  isOpen
    (commit_updates closed
       (handleOnStateChange String.eqb fruits closed arrow_down))
  = true
  /\ highlightedIndex
       (commit_updates closed
          (handleOnStateChange String.eqb fruits closed arrow_down))
     = 0%Z.
Proof.
  apply (arrowDown_opens_closed_menu string String.eqb fruits closed
           arrow_down);
    reflexivity.
Defined.

(** X12: when the [open] prop of a render differs from the one the
    component saw last, the menu takes the value of the prop whatever
    the handlers of that update did. *)
Theorem open_prop_overrides_handlers
  (Item : Type) (Item_eqb : Item -> Item -> bool)
  (p : Props Item) (i : Instance Item) (u : Update Item) :
  prevOpen (state i) <> open u ->
  isOpen (state (step Item_eqb p i u)) = open u.
Proof.
  intros Hne. unfold step.
  destruct (commit_isOpen Item_eqb (rendered Item_eqb p i u))
    as (-> & _ & _).
  unfold rendered. simpl state. unfold sync_open.
  rewrite handlers_prevOpen.
  destruct (Bool.eqb (prevOpen (state i)) (open u)) eqn:He.
  - apply Bool.eqb_prop in He. contradiction.
  - reflexivity.
Qed.

Lemma open_prop_overrides_handlers_witness :
  isOpen
    (state
       (step String.eqb fruits {| state := closed; deps := None |}
          outer_click_while_opening))
  = true.
Proof.
  apply (open_prop_overrides_handlers string String.eqb fruits
           {| state := closed; deps := None |} outer_click_while_opening).
  simpl. discriminate.
Defined.

(** X13: after every update the component has recorded the [open] prop
    of that render in [prevOpen]. *)
Theorem prevOpen_is_open_prop
  (Item : Type) (Item_eqb : Item -> Item -> bool)
  (p : Props Item) (i : Instance Item) (u : Update Item) :
  prevOpen (state (step Item_eqb p i u)) = open u.
Proof.
  unfold step.
  destruct (commit_isOpen Item_eqb (rendered Item_eqb p i u))
    as (_ & -> & _).
  unfold rendered. simpl state. unfold sync_open.
  rewrite handlers_prevOpen.
  destruct (Bool.eqb (prevOpen (state i)) (open u)) eqn:He.
  - rewrite handlers_prevOpen. now apply Bool.eqb_prop.
  - reflexivity.
Qed.

(** X14: the effect that copies the selection to [topItems] settles:
    once it has run for a render, committing the same render again
    changes nothing. *)
Theorem commit_settles
  (Item : Type) (Item_eqb : Item -> Item -> bool) (i : Instance Item) :
  (forall x, Item_eqb x x = true) ->
  commit Item_eqb (commit Item_eqb i) = commit Item_eqb i.
Proof.
  intros Hr.
  assert (Hsame : forall j : Instance Item,
             deps j = Some (currentSelectedItems (state j),
                            isOpen (state j)) ->
             commit Item_eqb j = j).
  { intros j Hj. unfold commit. rewrite Hj.
    rewrite (list_eqb_refl Item_eqb Hr), Bool.eqb_reflx. reflexivity. }
  assert (E : commit Item_eqb i
              = if match deps i with
                   | None => true
                   | Some (items, open) =>
                       negb (list_eqb Item_eqb items
                               (currentSelectedItems (state i))
                             && Bool.eqb open (isOpen (state i)))
                   end
                then {| state :=
                          commit_updates (state i)
                            (topItems_effect (state i));
                        deps := Some (currentSelectedItems (state i),
                                      isOpen (state i)) |}
                else i) by reflexivity.
  destruct (match deps i with Some _ => _ | None => _ end).
  - rewrite E. apply Hsame. unfold topItems_effect.
    destruct (isOpen (state i)) eqn:Ho; simpl; rewrite ?Ho; reflexivity.
  - rewrite E. exact E.
Qed.

Lemma commit_settles_witness :
  commit String.eqb (commit String.eqb (mount String.eqb fruits false))
  = commit String.eqb (mount String.eqb fruits false).
Proof.
  apply (commit_settles string String.eqb (mount String.eqb fruits false)).
  intros x. apply String.eqb_refl.
Defined.



(** X15: the handlers of an update never write [topItems] or
    [prevOpen], and the selection they leave is the last one
    [Selection] reported in that update, or the one before when it
    reported none. *)
Theorem handlers_selection
  (Item : Type) (Item_eqb : Item -> Item -> bool) (p : Props Item)
  (ti : option string) (s0 s : State Item) (evs : list (Event Item)) :
  topItems (commit_updates s (flat_map (handle Item_eqb p ti s0) evs))
  = topItems s
  /\ prevOpen (commit_updates s (flat_map (handle Item_eqb p ti s0) evs))
     = prevOpen s
  /\ currentSelectedItems
       (commit_updates s (flat_map (handle Item_eqb p ti s0) evs))
     = last (selections evs) (currentSelectedItems s).
Proof.
  revert s. induction evs as [|ev evs IH]; intros s; simpl.
  - repeat split; reflexivity.
  - rewrite commit_updates_app.
    destruct (IH (commit_updates s (handle Item_eqb p ti s0 ev)))
      as (-> & -> & ->).
    rewrite handle_topItems, handle_prevOpen, handle_currentSelectedItems.
    repeat split; try reflexivity.
    unfold selections. simpl flat_map. fold (selections evs).
    destruct ev; simpl app; try reflexivity.
    symmetry. apply last_cons.
Qed.

End MenuMore.

(* ================================================================= *)
(** ** More on ModalFooter *)

Module ModalFooterMore.

Import JS ModalFooter.
#[local] Open Scope string_scope.

Lemma property_TypeError (v : jsvalue) (k : string) :
  property v k = TypeError <-> is_nullish v = true.
Proof.
  destruct v; simpl; split; intros H; try discriminate; reflexivity.
Qed.

Lemma map_buttons_length (l : list jsvalue) : forall bs,
  map_buttons l = Return bs -> List.length bs = List.length l.
Proof.
  induction l as [|b l IH]; intros bs H; simpl in H.
  - injection H as <-. reflexivity.
  - destruct (property b "buttonText"); [|discriminate].
    destruct (property b "onClick"); [|discriminate].
    destruct (map_buttons l) as [bs'|]; [|discriminate].
    injection H as <-. simpl. f_equal. now apply IH.
Qed.

Lemma map_buttons_TypeError (l : list jsvalue) :
  map_buttons l = TypeError <-> existsb is_nullish l = true.
Proof.
  induction l as [|b l IH]; simpl.
  - split; discriminate.
  - destruct b; simpl;
      try (split; [reflexivity | reflexivity]);
      destruct (map_buttons l);
      (split; [intros H; try discriminate; apply IH; reflexivity
              | intros H; try reflexivity; apply IH in H; discriminate]).
Qed.

Lemma SecondaryButtonSet_length
  (secondaryButtons secondaryButtonText : jsvalue) (bs : list Button) :
  SecondaryButtonSet secondaryButtons secondaryButtonText = Return bs ->
  List.length bs <= if three_button secondaryButtons then 2 else 1.
Proof.
  unfold SecondaryButtonSet, three_button. intros H.
  assert (Hone :
    (if ToBoolean secondaryButtonText
     then Return [{| kind := "secondary";
                     onClick := handleRequestClose;
                     children := secondaryButtonText |}]
     else Return []) = Return bs -> List.length bs <= 1).
  { destruct (ToBoolean secondaryButtonText); intros [= <-]; simpl; lia. }
  destruct secondaryButtons as [| |b|x|t|f|l|o]; simpl;
    try (apply Hone in H; lia).
  destruct (Nat.leb (List.length l) 2) eqn:Hl.
  - apply map_buttons_length in H. rewrite H.
    apply Nat.leb_le in Hl.
    destruct (Nat.eqb (List.length l) 2) eqn:He.
    + lia.
    + apply Nat.eqb_neq in He. lia.
  - apply Nat.leb_gt in Hl. apply Hone in H.
    destruct (Nat.eqb (List.length l) 2); lia.
Qed.

(** X17: the footer renders at most three buttons of its own, and
    three only when it has the three-button class, that is when
    [secondaryButtons] is an array of two elements. *)
Theorem render_button_count
  (secondaryButtons secondaryButtonText primaryButtonText
     onRequestSubmit danger : jsvalue) (bs : list Button) :
  render secondaryButtons secondaryButtonText primaryButtonText
    onRequestSubmit danger = Return bs ->
  List.length bs <= if three_button secondaryButtons then 3 else 2.
Proof.
  unfold render. intros H.
  destruct (SecondaryButtonSet secondaryButtons secondaryButtonText)
    as [secondary|] eqn:Hs; [|discriminate].
  apply SecondaryButtonSet_length in Hs. injection H as <-.
  rewrite length_app.
  destruct (ToBoolean primaryButtonText), (three_button secondaryButtons);
    simpl; lia.
Qed.

Lemma render_button_count_witness :
  List.length
    [ {| kind := "secondary";
         onClick := given (JFunction "goBack");
         children := JString "Back" |};
      {| kind := "secondary";
         onClick := handleRequestClose;
         children := JString "Cancel" |};
      {| kind := "danger";
         onClick := given (JFunction "submit");
         children := JString "Delete" |} ]
  <= if three_button back_and_cancel then 3 else 2.
Proof.
  apply (render_button_count back_and_cancel (JString "Close")
           (JString "Delete") (JFunction "submit") (JBool true)).
  reflexivity.
Defined.



(** X28: a truthy [secondaryButtons] prop that the validator of the
    prop accepts gives the footer the three-button class. *)
Theorem accepted_buttons_get_three_button_class
  (props : list (string * jsvalue)) (componentName : string) :
  ToBoolean (get props "secondaryButtons") = true ->
  snd (propTypes.secondaryButtons props "secondaryButtons" componentName)
  = Return null ->
  three_button (get props "secondaryButtons") = true.
Proof.
  unfold propTypes.secondaryButtons, three_button. intros Ht.
  rewrite Ht.
  destruct (get props "secondaryButtons") as [| |b|x|t|f|l|o];
    simpl; try discriminate.
  destruct (Nat.eqb (List.length l) 2); simpl; [reflexivity|discriminate].
Qed.

Lemma accepted_buttons_get_three_button_class_witness :
  three_button
    (get [("secondaryButtons", back_and_cancel)] "secondaryButtons")
  = true.
Proof.
  apply (accepted_buttons_get_three_button_class
           [("secondaryButtons", back_and_cancel)] "ModalFooter");
    reflexivity.
Defined.

(** X19: rendering the secondary buttons throws a [TypeError] exactly
    when [secondaryButtons] is an array of at most two elements one of
    which is [null] or [undefined]. *)
Theorem SecondaryButtonSet_throws
  (secondaryButtons secondaryButtonText : jsvalue) :
  SecondaryButtonSet secondaryButtons secondaryButtonText = TypeError
  <-> exists l,
        secondaryButtons = JArray l
        /\ List.length l <= 2
        /\ existsb is_nullish l = true.
Proof.
  unfold SecondaryButtonSet. split.
  - destruct secondaryButtons as [| |b|x|t|f|l|o];
      try (destruct (ToBoolean secondaryButtonText); discriminate).
    destruct (Nat.leb (List.length l) 2) eqn:Hl.
    + intros H. exists l. split; [reflexivity|].
      split; [now apply Nat.leb_le|]. now apply map_buttons_TypeError.
    + destruct (ToBoolean secondaryButtonText); discriminate.
  - intros (l & -> & Hl & Hn). apply Nat.leb_le in Hl. rewrite Hl.
    now apply map_buttons_TypeError.
Qed.

End ModalFooterMore.

(* ================================================================= *)
(** ** useDisclosure *)

Module DisclosureFacts.

Import Disclosure.

Lemma commit_repeat (v : bool) (n : nat) : forall cell,
  commit cell (List.concat (repeat [v] n))
  = if Nat.eqb n 0 then cell else v.
Proof.
  unfold commit. induction n as [|n IH]; intros cell; [reflexivity|].
  simpl. rewrite IH. destruct n; reflexivity.
Qed.

Lemma update_toggles (id : string) (cell : bool) (clicks : nat) :
  update id cell clicks = if Nat.eqb clicks 0 then cell else negb cell.
Proof. unfold update. simpl onClick. apply commit_repeat. Qed.

(** X20: the disclosure is open after a series of renders exactly when
    the button was clicked in an odd number of them (starting closed):
    the clicks of one render all set the same value, so that they
    count as one. *)
Theorem open_after_clicks (id : string) (clicks : list nat) :
  open (useDisclosure id (run id initial clicks))
  = Nat.odd (clicked clicks)
  /\ aria_expanded (useDisclosure id (run id initial clicks))
     = Nat.odd (clicked clicks).
Proof.
  assert (H : forall cell,
             run id cell clicks = xorb cell (Nat.odd (clicked clicks))).
  { unfold run, clicked.
    induction clicks as [|n clicks IH]; intros cell; simpl.
    - now destruct cell.
    - rewrite IH, update_toggles. destruct n as [|n]; simpl; [reflexivity|].
      rewrite Nat.odd_succ, <- Nat.negb_odd.
      destruct cell, (Nat.odd _); reflexivity. }
  simpl. rewrite H. split; reflexivity.
Qed.

End DisclosureFacts.

(* ================================================================= *)
(** ** More on the Sketch colours *)

Module SketchMore.

Import SketchColors SketchExamples.
#[local] Open Scope string_scope.

Section Recording.

Variable Color : Type.
Variable colors : object (object Color).
Variable formatTokenName : string -> string.

Lemma map_sync_recording (A : Type)
  (f : A -> list (string * option Color)
       -> list (string * option Color) * (string * option Color))
  (n : A -> string) (c : A -> option Color) (l : list A) :
  (forall x d, f x d = recording d (n x) (c x)) ->
  forall d,
    fst (map_sync f l d) = (d ++ map (fun x => (n x, c x)) l)%list.
Proof.
  intros Hf. induction l as [|x l IH]; intros d; simpl.
  - now rewrite app_nil_r.
  - rewrite Hf. unfold recording at 1.
    specialize (IH (d ++ [(n x, c x)])%list).
    destruct (map_sync f l (d ++ [(n x, c x)])%list) as [d' ys].
    simpl in *. rewrite IH, <- app_assoc. reflexivity.
Qed.

Lemma flatMap_sync_flat_map (Document B : Type)
  (F : string * string -> Document -> Document * B) swatchNames :
  forall document,
    flatMap_sync
      (fun swatchName =>
         map_sync (fun grade => F (swatchName, grade))
           (keys (swatch colors swatchName)))
      swatchNames document
    = map_sync F
        (flat_map
           (fun swatchName =>
              map (fun grade => (swatchName, grade))
                (keys (swatch colors swatchName)))
           swatchNames)
        document.
Proof.
  induction swatchNames as [|n l IH]; intros document; simpl;
    [reflexivity|].
  rewrite SketchFacts.map_sync_app, SketchFacts.map_sync_map.
  destruct (map_sync _ (keys (swatch colors n)) document) as [d ys].
  now rewrite IH.
Qed.

Lemma map_sync_recording_snd (A : Type)
  (f : A -> list (string * option Color)
       -> list (string * option Color) * (string * option Color))
  (n : A -> string) (c : A -> option Color) (l : list A) :
  (forall x d, f x d = recording d (n x) (c x)) ->
  forall d, snd (map_sync f l d) = map (fun x => (n x, c x)) l.
Proof.
  intros Hf. induction l as [|x l IH]; intros d; simpl; [reflexivity|].
  rewrite Hf. unfold recording at 1.
  specialize (IH (d ++ [(n x, c x)])%list).
  destruct (map_sync f l (d ++ [(n x, c x)])%list) as [d' ys].
  simpl in *. now rewrite IH.
Qed.

Lemma map_sync_recorded (A : Type)
  (f : A -> list (string * option Color)
       -> list (string * option Color) * (string * option Color))
  (n : A -> string) (c : A -> option Color) (l : list A) d :
  (forall x d, f x d = recording d (n x) (c x)) ->
  map_sync f l d
  = ((d ++ map (fun x => (n x, c x)) l)%list,
     map (fun x => (n x, c x)) l).
Proof.
  intros Hf.
  rewrite <- (map_sync_recording _ f n c l Hf d).
  rewrite <- (map_sync_recording_snd _ f n c l Hf d).
  now destruct (map_sync f l d).
Qed.

(** What [syncColorVariables] passes to [syncColorVariable] for the
    grades of the swatches. *)
Lemma graded_variables (document : list (string * option Color)) :
  flatMap_sync
    (fun swatchName =>
       map_sync
         (fun grade document =>
            recording document
              (formatColorName (formatTokenName swatchName) (Some grade)
                 "colorVariable")
              (get (swatch colors swatchName) grade))
         (keys (swatch colors swatchName)))
    (keys (swatches colors)) document
  = ((document
      ++ map
           (fun pair =>
              (formatColorName (formatTokenName (fst pair))
                 (Some (snd pair)) "colorVariable",
               get (swatch colors (fst pair)) (snd pair)))
           (pairs colors))%list,
     map
       (fun pair =>
          (formatColorName (formatTokenName (fst pair))
             (Some (snd pair)) "colorVariable",
           get (swatch colors (fst pair)) (snd pair)))
       (pairs colors)).
Proof.
  pose proof
    (flatMap_sync_flat_map _ _
       (fun pair document =>
          recording document
            (formatColorName (formatTokenName (fst pair))
               (Some (snd pair)) "colorVariable")
            (get (swatch colors (fst pair)) (snd pair)))
       (keys (swatches colors)) document) as H.
  cbv beta in H. simpl fst in H. simpl snd in H. rewrite H.
  fold (pairs colors). apply map_sync_recorded. reflexivity.
Qed.

(** The same for [syncColorStyles]. *)
Lemma graded_styles (document : list (string * option Color)) :
  flatMap_sync
    (fun swatchName =>
       map_sync
         (fun grade document =>
            recording document
              (formatColorName (formatTokenName swatchName) (Some grade)
                 "sharedLayerStyle")
              (get (swatch colors swatchName) grade))
         (keys (swatch colors swatchName)))
    (keys (swatches colors)) document
  = ((document
      ++ map
           (fun pair =>
              (formatColorName (formatTokenName (fst pair))
                 (Some (snd pair)) "sharedLayerStyle",
               get (swatch colors (fst pair)) (snd pair)))
           (pairs colors))%list,
     map
       (fun pair =>
          (formatColorName (formatTokenName (fst pair))
             (Some (snd pair)) "sharedLayerStyle",
           get (swatch colors (fst pair)) (snd pair)))
       (pairs colors)).
Proof.
  pose proof
    (flatMap_sync_flat_map _ _
       (fun pair document =>
          recording document
            (formatColorName (formatTokenName (fst pair))
               (Some (snd pair)) "sharedLayerStyle")
            (get (swatch colors (fst pair)) (snd pair)))
       (keys (swatches colors)) document) as H.
  cbv beta in H. simpl fst in H. simpl snd in H. rewrite H.
  fold (pairs colors). apply map_sync_recorded. reflexivity.
Qed.

End Recording.



Example palette_variables :
  snd (syncColorVariables palette kebab recording [])
  = Some
      [("blue/blue 10", Some "#edf5ff");
       ("blue/blue 20", Some "#d0e2ff");
       ("cool gray/cool gray 10", Some "#f2f4f8");
       ("black", Some "#000000");
       ("white", Some "#ffffff");
       ("orange", Some "#ff832b");
       ("yellow", Some "#f1c21b")].
Proof. reflexivity. Qed.

(** X22: [syncColorStyles] and [syncColorVariables] sync the same
    colours in the same order, whether or not they throw at the end. *)
Theorem styles_and_variables_same_colors
  (Color : Type) (colors : object (object Color))
  (formatTokenName : string -> string)
  (document : list (string * option Color)) :
  map snd (fst (syncColorStyles colors formatTokenName recording document))
  = map snd
      (fst (syncColorVariables colors formatTokenName recording document)).
Proof.
  unfold syncColorStyles, syncColorVariables. cbv zeta.
  rewrite graded_variables, graded_styles.
  destruct (SketchColors.black colors), (SketchColors.white colors),
    (SketchColors.orange colors), (SketchColors.yellow colors);
    simpl map_sync; unfold recording; simpl fst;
    rewrite ?map_app, ?map_map; reflexivity.
Qed.



Example throws_after_graded :
  syncColorStyles palette_without_yellow_swatch kebab sync []
  = ([("color / blue / 10", Some "#edf5ff");
      ("color / blue / 20", Some "#d0e2ff")],
     None).
Proof. reflexivity. Qed.

(** X24: every name formatted for a shared layer style is in the
    [color] namespace: it starts with [color]. *)
Theorem sharedLayerStyle_name_in_color_namespace
  (name : string) (grade : option string) :
  String.prefix "color"
    (formatColorName name grade "sharedLayerStyle") = true.
Proof.
  unfold formatColorName. simpl String.eqb. cbv iota.
  unfold join_truthy. simpl flat_map.
  destruct (String.eqb (replace_dash name) "");
    destruct grade as [g|]; try destruct (String.eqb g "");
    reflexivity.
Qed.

End SketchMore.
